(** * personal_expense: the expense store and its HTTP create surface

    A shallow embedding of [db_helper.py] (the SQLite-backed expense store)
    and of the request handlers of [app.py] that sit on top of it, followed by
    the properties of the design document that concern them.

    Conventions of the embedding.
    - A Python [float] and an SQLite [REAL] are IEEE binary64 numbers: Rocq's
      primitive [float].
    - A timestamp text ['YYYY-MM-DD HH:MM:SS'] is the number of seconds it
      denotes; between two such texts SQLite's text comparison is the
      comparison of these numbers.
    - The table [personal_expenses] is the list of its rows in rowid order,
      together with the [sqlite_sequence] counter that [AUTOINCREMENT] keeps.
    - Every function of [db_helper.py] opens the database, runs its
      statements and closes it: here it takes the database and returns the
      database it leaves behind.
    - The two clocks the code reads are inputs: [datetime.now()] (local wall
      clock, microseconds) and SQLite's [CURRENT_TIMESTAMP] (UTC, seconds). *)

From Stdlib Require Import ZArith List String Ascii Bool Floats Lia.
From Stdlib Require Import Permutation Sorted OrderedTypeEx.
Import ListNotations.

#[local] Set Warnings "-inexact-float".
Local Open Scope Z_scope.

(* ------------------------------------------------------------------------- *)
(** ** Python values, exceptions and results                                  *)
(* ------------------------------------------------------------------------- *)

Module py.

(** The exceptions the modelled code can meet. *)
Inductive exn : Type :=
| ValueError
| TypeError
| OverflowError
| AttributeError
| IntegrityError.

(** A call either returns or raises. *)
Inductive result (A : Type) : Type :=
| Return (a : A)
| Raise (e : exn).
Arguments Return {A} a.
Arguments Raise {A} e.

(** A value of a JSON field as Python sees it after [request.get_json()].
    Lists and objects only matter through their emptiness. *)
Inductive value : Type :=
| None_
| Bool_ (b : bool)
| Int_ (z : Z)
| Float_ (f : float)
| Str_ (s : string)
| Container_ (nonempty : bool).

(** Truth value of an object, as [not x] and [if x:] use it. *)
Definition truthy (v : value) : bool :=
  match v with
  | None_ => false
  | Bool_ b => b
  | Int_ z => negb (z =? 0)
  | Float_ f => negb (f =? 0)%float
  | Str_ s => negb (s =? "")%string
  | Container_ nonempty => nonempty
  end.

(** Truth value of an optional string ([None] and [''] are false). *)
Definition truthy_str (s : option string) : bool :=
  match s with
  | None => false
  | Some t => negb (t =? "")%string
  end.

(** Truth value of a float. *)
Definition truthy_float (f : float) : bool := negb (f =? 0)%float.

(** [x in xs] for a list of strings. *)
Definition str_in (x : string) (xs : list string) : bool :=
  existsb (String.eqb x) xs.

(** [sep.join(xs)]. *)
Fixpoint join (sep : string) (xs : list string) : string :=
  match xs with
  | [] => ""
  | [x] => x
  | x :: rest => x ++ sep ++ join sep rest
  end.

End py.

(* ------------------------------------------------------------------------- *)
(** ** The fragment of SQL the store uses                                     *)
(* ------------------------------------------------------------------------- *)

Module sql.

(** A possibly NULL value. *)
Definition nullable (A : Type) : Type := option A.

(** Three-valued truth: [None] is NULL (unknown). *)
Definition tri : Type := option bool.

Definition and3 (a b : tri) : tri :=
  match a, b with
  | Some false, _ | _, Some false => Some false
  | Some true, Some true => Some true
  | _, _ => None
  end.

Definition or3 (a b : tri) : tri :=
  match a, b with
  | Some true, _ | _, Some true => Some true
  | Some false, Some false => Some false
  | _, _ => None
  end.

(** [x = y]: NULL as soon as one side is NULL. *)
Definition eq3 {A : Type} (eqb : A -> A -> bool) (x y : nullable A) : tri :=
  match x, y with
  | Some a, Some b => Some (eqb a b)
  | _, _ => None
  end.

(** [x >= y] on non-NULL integers (here: timestamps). *)
Definition ge3 (x y : nullable Z) : tri :=
  match x, y with
  | Some a, Some b => Some (b <=? a)
  | _, _ => None
  end.

(** [x IS NULL] is never unknown. *)
Definition is_null {A : Type} (x : nullable A) : tri :=
  match x with
  | None => Some true
  | Some _ => Some false
  end.

(** A WHERE clause keeps a row when its condition is true (not false, not
    NULL). *)
Definition holds (c : tri) : bool :=
  match c with
  | Some true => true
  | _ => false
  end.

(** Binding a Python float to a statement: SQLite turns NaN into NULL. *)
Definition bind_real (f : float) : nullable float :=
  if is_nan f then None else Some f.

(** ORDER BY, as a stable insertion sort of the scanned rows: [le a b] says
    that [a] may come before [b]. Rows equal on every sort key keep the
    order of the scan. *)
Section OrderBy.
Context {A : Type} (le : A -> A -> bool).

Fixpoint insert_sorted (x : A) (l : list A) : list A :=
  match l with
  | [] => [x]
  | y :: rest => if le x y then x :: l else y :: insert_sorted x rest
  end.

Definition order_by (l : list A) : list A :=
  fold_right insert_sorted [] l.

(** The order of the result, as a relation. *)
Definition precedes (a b : A) : Prop := le a b = true.
End OrderBy.

(** LIMIT 1 followed by [fetchone()]. *)
Definition limit_1 {A : Type} (l : list A) : option A := hd_error l.

(** The INTEGER storage class: signed 64-bit numbers. *)
Definition int64 (z : Z) : bool := (- 2 ^ 63 <=? z) && (z <? 2 ^ 63).

End sql.

(* ------------------------------------------------------------------------- *)
(** ** db_helper.py                                                           *)
(* ------------------------------------------------------------------------- *)

Module db_helper.

(** A row of [personal_expenses]. [amount] is NOT NULL and SQLite holds no
    NaN, [description] may be NULL, [created_at] is the second at which the
    row was inserted (UTC). [expense_date] is the text the caller gave, taken
    not to read as a number (no 'YYYY-MM-DD' does): the column's NUMERIC
    affinity leaves such a text as it is, and texts compare byte by byte. *)
Record expense : Type := mk_expense {
  id : Z;
  amount : float;
  category : string;
  description : sql.nullable string;
  expense_date : string;
  created_at : Z
}.

(** The database file: the table in rowid order and the largest rowid
    [AUTOINCREMENT] has handed out so far. *)
Record database : Type := mk_database {
  personal_expenses : list expense;
  sqlite_sequence : Z
}.

(** What the two clocks return during one call. *)
Record clock : Type := mk_clock {
  datetime_now : Z;        (* [datetime.now()]: local wall clock, microseconds *)
  CURRENT_TIMESTAMP : Z    (* SQLite's [CURRENT_TIMESTAMP]: UTC, seconds *)
}.

(** The labels of the CHECK constraint on [category]. *)
Definition category_check : list string :=
  ["FOOD"; "RENT"; "TRANSPORT"; "GROCERIES"; "UTILITIES"; "ENTERTAINMENT";
   "HEALTH"; "EDUCATION"; "SHOPPING"; "TRAVEL"; "OTHER"]%string.

(** [init_db]: CREATE TABLE IF NOT EXISTS. A missing file gets the empty
    table, an existing table is left as it is. (The branch that adds the
    [description] column to an older table is not modelled: every table
    here has the column.) *)
Definition init_db (file : option database) : database :=
  match file with
  | None => mk_database [] 0
  | Some db => db
  end.

(** [strftime('%Y-%m-%d %H:%M:%S')] of [datetime.now() - timedelta(minutes)]:
    the microseconds are dropped. *)
Definition time_threshold (now_local : Z) (time_window_minutes : Z) : Z :=
  (now_local - time_window_minutes * 60 * 1000000) / 1000000.

(** The WHERE clause of [check_duplicate], for one row. [expense_date = ?]
    is the comparison of two texts, as it is for a date that does not read
    as a number (see [expense]). *)
Definition duplicate_where (amount_ : float) (category_ expense_date_ : string)
    (description_ : option string) (threshold : Z) (row : expense) : sql.tri :=
  sql.and3 (sql.and3 (sql.and3 (sql.and3
    (sql.eq3 PrimFloat.eqb (Some (amount row)) (sql.bind_real amount_))
    (sql.eq3 String.eqb (Some (category row)) (Some category_)))
    (sql.eq3 String.eqb (Some (expense_date row)) (Some expense_date_)))
    (sql.or3 (sql.eq3 String.eqb (description row) description_)
             (sql.and3 (sql.is_null (description row)) (sql.is_null description_))))
    (sql.ge3 (Some (created_at row)) (Some threshold)).

(** ORDER BY created_at DESC. *)
Definition created_at_desc (a b : expense) : bool :=
  created_at b <=? created_at a.

Definition check_duplicate (amount_ : float) (category_ expense_date_ : string)
    (description_ : option string) (time_window_minutes : Z)
    (now_local : Z) (db : database) : option expense :=
  let threshold := time_threshold now_local time_window_minutes in
  sql.limit_1
    (sql.order_by created_at_desc
       (filter (fun row => sql.holds (duplicate_where amount_ category_
                                        expense_date_ description_ threshold row))
               (personal_expenses db))).

(** The dictionary [add_expense] returns. *)
Record outcome : Type := mk_outcome {
  status : string;
  expense_ : expense;
  message : string
}.

(** The rowid an [INTEGER PRIMARY KEY AUTOINCREMENT] column gives a new row:
    one more than the largest rowid ever used. *)
Definition max_rowid (rows : list expense) : Z :=
  fold_right (fun row m => Z.max (id row) m) 0 rows.

Definition next_rowid (db : database) : Z :=
  Z.max (max_rowid (personal_expenses db)) (sqlite_sequence db) + 1.

(** INSERT INTO personal_expenses (amount, category, description,
    expense_date): NOT NULL on [amount] (a NaN is bound as NULL) and the
    CHECK on [category] are enforced; [created_at] takes its default.
    Returns [lastrowid]. *)
Definition insert_expense (amount_ : float) (category_ : string)
    (description_ : option string) (expense_date_ : string)
    (utc_now : Z) (db : database) : py.result Z * database :=
  match sql.bind_real amount_ with
  | None => (py.Raise py.IntegrityError, db)
  | Some a =>
      if py.str_in category_ category_check then
        let rowid := next_rowid db in
        (py.Return rowid,
         mk_database
           (personal_expenses db ++
              [mk_expense rowid a category_ description_ expense_date_ utc_now])
           rowid)
      else (py.Raise py.IntegrityError, db)
  end.

(** SELECT ... WHERE id = ? followed by [fetchone()]. *)
Definition select_by_id (expense_id : Z) (db : database) : option expense :=
  find (fun row => id row =? expense_id) (personal_expenses db).

(** [add_expense], on the table. When the INSERT is refused the source
    does not close its connection; the lock this can leave on the file until
    the connection is collected is state of the process, not of the table,
    and is not modelled. *)
Definition add_expense (amount_ : float) (category_ expense_date_ : string)
    (description_ : option string) (clk : clock) (db : database)
    : py.result outcome * database :=
  match check_duplicate amount_ category_ expense_date_ description_ 5
                        (datetime_now clk) db with
  | Some existing =>
      (py.Return (mk_outcome "duplicate" existing
                    "Duplicate expense detected. Returning existing record."), db)
  | None =>
      match insert_expense amount_ category_ description_ expense_date_
                           (CURRENT_TIMESTAMP clk) db with
      | (py.Raise e, db') => (py.Raise e, db')
      | (py.Return expense_id, db') =>
          match select_by_id expense_id db' with
          | Some row =>
              (py.Return (mk_outcome "created" row "Expense created successfully."), db')
          | None => (py.Raise py.TypeError, db')   (* [dict(None)] *)
          end
      end
  end.

(** [if category:] adds [WHERE category = ?]: [None] and [''] do not
    filter. *)
Definition category_where (category_ : option string) (row : expense) : bool :=
  if py.truthy_str category_ then
    sql.holds (sql.eq3 String.eqb (Some (category row)) category_)
  else true.

(** ORDER BY expense_date ASC, created_at ASC, for dates the store keeps as
    texts (see [expense]): they compare byte by byte. *)
Definition date_asc (a b : expense) : bool :=
  match String.compare (expense_date a) (expense_date b) with
  | Lt => true
  | Eq => created_at a <=? created_at b
  | Gt => false
  end.

(** ORDER BY expense_date DESC, created_at DESC, for dates kept as texts. *)
Definition date_desc (a b : expense) : bool :=
  match String.compare (expense_date a) (expense_date b) with
  | Gt => true
  | Eq => created_at b <=? created_at a
  | Lt => false
  end.

Definition get_expenses (category_ : option string) (sort_by_date_desc : bool)
    (db : database) : list expense :=
  sql.order_by (if sort_by_date_desc then date_desc else date_asc)
    (filter (category_where category_) (personal_expenses db)).

(** SUM(amount): NULL over no row, else the running floating-point sum of
    the rows as they are scanned (a NaN result is returned as NULL). This is
    the sum as SQLite computes it up to version 3.43; from 3.44 on it
    carries a correction term for the rounding errors, and on some inputs
    the result differs in the last digits. *)
Definition sum_real (xs : list float) : sql.nullable float :=
  match xs with
  | [] => None
  | _ => sql.bind_real (fold_left PrimFloat.add xs 0%float)
  end.

Definition get_total_expenses (category_ : option string) (db : database) : float :=
  match sum_real (map amount (filter (category_where category_)
                                     (personal_expenses db))) with
  | Some total => if py.truthy_float total then total else 0%float
  | None => 0%float
  end.

(** [delete_expense] for an [expense_id] among SQLite's integers, the signed
    64-bit numbers; [delete_expense_int] below takes any Python [int]. *)
Definition delete_expense (expense_id : Z) (db : database) : bool * database :=
  match select_by_id expense_id db with
  | None => (false, db)
  | Some _ =>
      (true,
       mk_database
         (filter (fun row => negb (id row =? expense_id)) (personal_expenses db))
         (sqlite_sequence db))
  end.

(** Binding a Python [int] to a statement: a signed 64-bit number is bound
    as an INTEGER, for any other [int] the adapter raises OverflowError
    ("Python int too large to convert to SQLite INTEGER"). *)
Definition bind_integer (z : Z) : py.result Z :=
  if sql.int64 z then py.Return z else py.Raise py.OverflowError.

(** [delete_expense] with any Python [int] as [expense_id]: the first
    [execute] binds it, and raises before any statement has run when it is
    out of range; otherwise as above. *)
Definition delete_expense_int (expense_id : Z) (db : database)
    : py.result bool * database :=
  match bind_integer expense_id with
  | py.Raise e => (py.Raise e, db)
  | py.Return i =>
      let (was_deleted, db') := delete_expense i db in
      (py.Return was_deleted, db')
  end.

End db_helper.

(* ------------------------------------------------------------------------- *)
(** ** app.py                                                                 *)
(* ------------------------------------------------------------------------- *)

Module app.

Definition VALID_CATEGORIES : list string :=
  ["FOOD"; "RENT"; "TRANSPORT"; "GROCERIES"; "UTILITIES";
   "ENTERTAINMENT"; "HEALTH"; "EDUCATION"; "SHOPPING"; "TRAVEL"; "OTHER"]%string.

(** The [description] member of the request object: left out, JSON null,
    or a text. *)
Inductive description_field : Type :=
| absent
| null
| text (s : string).

(** The members of the request object the handler reads. [amount] and
    [category] are any JSON value ([py.None_] when the member is left out
    or null); [date] and [description] are texts when present, the form in
    which they reach the store. (A [date] or [description] that is a JSON
    number, list or object is not covered.) *)
Record json_object : Type := mk_json_object {
  amount : py.value;
  category : py.value;
  date : option string;
  description : description_field
}.

(** What [request.get_json()] returned: a false value (JSON null, an empty
    object or list, 0, an empty text), an object with members, or a true
    value that is not an object (a list, a number, a text) and so has no
    [get]. A request on which [get_json()] itself raises (no JSON content
    type, a body that does not parse) is no value of this type; the
    handler's [except Exception] answers it 500. *)
Inductive json_body : Type :=
| no_data
| data (members : json_object)
| not_an_object.

(** [jsonify(...)] with its status code. *)
Inductive payload : Type :=
| error (msg : string)
| exception (e : py.exn)
| expense_result (o : db_helper.outcome)
| expense_list (expenses : list db_helper.expense) (total : float) (count : Z)
| deleted (expense_id : Z).

Definition response : Type := (payload * Z)%type.

Section Handlers.

(** Python built-ins the handlers call, taken as given: [str.upper],
    [float] of an [int] ([None]: OverflowError) and [float] of a [str]
    ([None]: ValueError). *)
Variable upper : string -> string.
Variable float_of_int : Z -> option float.
Variable float_of_str : string -> option float.

(** [float(amount)]. *)
Definition float_ (v : py.value) : py.result float :=
  match v with
  | py.None_ => py.Raise py.TypeError
  | py.Bool_ b => py.Return (if b then 1%float else 0%float)
  | py.Int_ z =>
      match float_of_int z with
      | Some f => py.Return f
      | None => py.Raise py.OverflowError
      end
  | py.Float_ f => py.Return f
  | py.Str_ s =>
      match float_of_str s with
      | Some f => py.Return f
      | None => py.Raise py.ValueError
      end
  | py.Container_ _ => py.Raise py.TypeError
  end.

(** [data.get('description', '')]. *)
Definition get_description (d : description_field) : option string :=
  match d with
  | absent => Some ""%string
  | null => None
  | text s => Some s
  end.

Definition is_none (v : py.value) : bool :=
  match v with
  | py.None_ => true
  | _ => false
  end.

Definition category_error : string :=
  ("category must be one of: " ++ py.join ", " VALID_CATEGORIES)%string.

(** POST /expenses. Every exception that is not caught nearer ends in
    the handler's [except Exception] and a 500. *)
Definition create_expense (body : json_body) (clk : db_helper.clock)
    (db : db_helper.database) : response * db_helper.database :=
  match body with
  | no_data => ((error "Request body is required", 400), db)
  | not_an_object => ((exception py.AttributeError, 500), db)
  | data d =>
      let description_ := get_description (description d) in
      if is_none (amount d) then ((error "amount is required", 400), db)
      else if negb (py.truthy (category d)) then
        ((error "category is required", 400), db)
      else
        match date d with
        | None => ((error "date is required", 400), db)
        | Some expense_date =>
            if negb (py.truthy_str (Some expense_date)) then
              ((error "date is required", 400), db)
            else
              match float_ (amount d) with
              | py.Raise py.ValueError | py.Raise py.TypeError =>
                  ((error "amount must be a valid number", 400), db)
              | py.Raise e => ((exception e, 500), db)
              | py.Return amount_ =>
                  if (amount_ <=? 0)%float then
                    ((error "amount must be greater than 0", 400), db)
                  else
                    match category d with
                    | py.Str_ c =>
                        let category_ := upper c in
                        if negb (py.str_in category_ VALID_CATEGORIES) then
                          ((error category_error, 400), db)
                        else
                          match db_helper.add_expense amount_ category_ expense_date
                                                      description_ clk db with
                          | (py.Raise e, db') => ((exception e, 500), db')
                          | (py.Return result, db') =>
                              if (db_helper.status result =? "duplicate")%string
                              then ((expense_result result, 200), db')
                              else ((expense_result result, 201), db')
                          end
                    | _ =>
                        (* [category.upper()] on a value that is not a str *)
                        ((exception py.AttributeError, 500), db)
                    end
              end
        end
  end.

(** GET /expenses, with the query parameters [category] and [sort]. *)
Definition get_expenses (category_arg sort : option string)
    (db : db_helper.database) : response :=
  let listing (c : option string) :=
    let expenses := db_helper.get_expenses c
                      (match sort with
                       | Some s => (s =? "date_desc")%string
                       | None => false
                       end) db in
    let total := db_helper.get_total_expenses c db in
    (expense_list expenses total (Z.of_nat (List.length expenses)), 200) in
  if py.truthy_str category_arg then
    let c := option_map upper category_arg in
    if negb (match c with
             | Some s => py.str_in s VALID_CATEGORIES
             | None => false
             end)
    then (error ("Invalid category. Must be one of: "
                   ++ py.join ", " VALID_CATEGORIES)%string, 400)
    else listing c
  else listing category_arg.

End Handlers.

(** DELETE /expenses/<int:expense_id>. *)
Definition delete_expense (expense_id : Z) (db : db_helper.database)
    : response * db_helper.database :=
  let (was_deleted, db') := db_helper.delete_expense expense_id db in
  if was_deleted then ((deleted expense_id, 200), db')
  else ((error "Expense not found", 404), db').

(** The same route on any run of digits in the path (the [int] converter
    takes them all): what [db_helper.delete_expense] raises ends in the
    handler's [except Exception] and a 500. *)
Definition delete_expense_int (expense_id : Z) (db : db_helper.database)
    : response * db_helper.database :=
  match db_helper.delete_expense_int expense_id db with
  | (py.Raise e, db') => ((exception e, 500), db')
  | (py.Return was_deleted, db') =>
      if was_deleted then ((deleted expense_id, 200), db')
      else ((error "Expense not found", 404), db')
  end.

End app.

(* ------------------------------------------------------------------------- *)
(** ** The clocks, and sequences of calls                                     *)
(* ------------------------------------------------------------------------- *)

Module world.

(** What the clocks show at an instant (microseconds of UTC since the
    epoch) on a host whose local zone is [utc_offset] seconds ahead of UTC:
    [datetime.now()] is the local wall clock, [CURRENT_TIMESTAMP] is UTC cut
    to the second. The few microseconds between the two readings of one call
    are neglected. *)
Definition clock_at (utc_offset instant : Z) : db_helper.clock :=
  db_helper.mk_clock (instant + utc_offset * 1000000) (instant / 1000000).

Definition seconds (n : Z) : Z := n * 1000000.
Definition minutes (n : Z) : Z := n * 60 * 1000000.

(** The same expense recorded at two instants, with possibly different
    forms of the description. *)
Definition add_twice (utc_offset : Z) (amount_ : float)
    (category_ expense_date_ : string) (description1 description2 : option string)
    (instant1 instant2 : Z) (db : db_helper.database)
    : py.result db_helper.outcome * py.result db_helper.outcome * db_helper.database :=
  let (r1, db1) := db_helper.add_expense amount_ category_ expense_date_ description1
                     (clock_at utc_offset instant1) db in
  let (r2, db2) := db_helper.add_expense amount_ category_ expense_date_ description2
                     (clock_at utc_offset instant2) db1 in
  (r1, r2, db2).

(** A call of the store that can change it. *)
Inductive call : Type :=
| add (amount_ : float) (category_ expense_date_ : string)
      (description_ : option string) (clk : db_helper.clock)
| delete (expense_id : Z).

Definition run_call (c : call) (db : db_helper.database) : db_helper.database :=
  match c with
  | add a c d s clk => snd (db_helper.add_expense a c d s clk db)
  | delete i => snd (db_helper.delete_expense i db)
  end.

(** The id of the row a call inserts, if it inserts one. *)
Definition inserted_id (c : call) (db : db_helper.database) : option Z :=
  match c with
  | add a c d s clk =>
      match db_helper.add_expense a c d s clk db with
      | (py.Return o, _) =>
          if (db_helper.status o =? "created")%string
          then Some (db_helper.id (db_helper.expense_ o)) else None
      | _ => None
      end
  | delete _ => None
  end.

(** The database after a sequence of calls, and the ids of the rows
    inserted along the way, oldest first. *)
Fixpoint run (calls : list call) (db : db_helper.database) : db_helper.database :=
  match calls with
  | [] => db
  | c :: rest => run rest (run_call c db)
  end.

Fixpoint inserted_ids (calls : list call) (db : db_helper.database) : list Z :=
  match calls with
  | [] => []
  | c :: rest =>
      match inserted_id c db with
      | Some i => i :: inserted_ids rest (run_call c db)
      | None => inserted_ids rest (run_call c db)
      end
  end.

(** The database of a fresh installation. *)
Definition fresh : db_helper.database := db_helper.init_db None.

(** [str.upper] on ASCII text. *)
Definition upper_ascii_char (c : ascii) : ascii :=
  let n := N_of_ascii c in
  if ((97 <=? n) && (n <=? 122))%N then ascii_of_N (n - 32) else c.

Fixpoint upper_ascii (s : string) : string :=
  match s with
  | EmptyString => EmptyString
  | String c rest => String (upper_ascii_char c) (upper_ascii rest)
  end.

End world.

(* ------------------------------------------------------------------------- *)
(** ** Vocabulary of the properties                                           *)
(* ------------------------------------------------------------------------- *)

Module spec.

(** What the schema and [AUTOINCREMENT] maintain: rowids grow along the
    table and none exceeds the counter; no stored amount is NaN; every
    stored category passes the CHECK. *)
Record well_formed (db : db_helper.database) : Prop := mk_well_formed {
  wf_sorted :
    StronglySorted (fun a b => db_helper.id a < db_helper.id b)
                   (db_helper.personal_expenses db);
  wf_sequence :
    Forall (fun row => db_helper.id row <= db_helper.sqlite_sequence db)
           (db_helper.personal_expenses db);
  wf_amount :
    Forall (fun row => is_nan (db_helper.amount row) = false)
           (db_helper.personal_expenses db);
  wf_category :
    Forall (fun row => In (db_helper.category row) db_helper.category_check)
           (db_helper.personal_expenses db)
}.

(** The two dictionaries [add_expense] returns. *)
Definition created_outcome (row : db_helper.expense) : db_helper.outcome :=
  db_helper.mk_outcome "created" row "Expense created successfully.".

Definition duplicate_outcome (row : db_helper.expense) : db_helper.outcome :=
  db_helper.mk_outcome "duplicate" row
    "Duplicate expense detected. Returning existing record.".

(** The row [add_expense] inserts when it inserts one. *)
Definition new_row (amount_ : float) (category_ expense_date_ : string)
    (description_ : option string) (clk : db_helper.clock)
    (db : db_helper.database) : db_helper.expense :=
  db_helper.mk_expense (db_helper.next_rowid db) amount_ category_ description_
    expense_date_ (db_helper.CURRENT_TIMESTAMP clk).

(** A stored row has the content of a submission when the store's equality
    tests say so on each column. *)
Definition same_content (amount_ : float) (category_ expense_date_ : string)
    (description_ : option string) (row : db_helper.expense) : Prop :=
  (db_helper.amount row =? amount_)%float = true /\
  db_helper.category row = category_ /\
  db_helper.expense_date row = expense_date_ /\
  db_helper.description row = description_.

(** Oldest first: the earlier [expense_date] (as texts compare), and on the
    same [expense_date] the earlier [created_at]. *)
Definition oldest_first (a b : db_helper.expense) : Prop :=
  String.compare (db_helper.expense_date a) (db_helper.expense_date b) = Lt \/
  (db_helper.expense_date a = db_helper.expense_date b /\
   db_helper.created_at a <= db_helper.created_at b).

(** Newest first: both keys the other way round. *)
Definition newest_first (a b : db_helper.expense) : Prop := oldest_first b a.

(** The rows a category filter selects: all of them when no category is
    given, else those of exactly that category. *)
Definition passes (category_ : option string) (row : db_helper.expense) : bool :=
  match category_ with
  | None => true
  | Some c => (db_helper.category row =? c)%string
  end.

(** A calendar date written YYYY-MM-DD: four digits, a hyphen, two digits, a
    hyphen, two digits. Such a text does not read as a number, so the store
    keeps it as a text, and of two of them the earlier date is the smaller
    text. *)
Definition is_digit (c : ascii) : bool :=
  ((48 <=? N_of_ascii c) && (N_of_ascii c <=? 57))%N.

Definition calendar_date (s : string) : bool :=
  match list_ascii_of_string s with
  | [y1; y2; y3; y4; h1; m1; m2; h2; d1; d2] =>
      forallb is_digit [y1; y2; y3; y4; m1; m2; d1; d2]
      && Ascii.eqb h1 "-" && Ascii.eqb h2 "-"
  | _ => false
  end.



End spec.

(* ------------------------------------------------------------------------- *)
(** ** Inputs of the worked examples                                          *)
(* ------------------------------------------------------------------------- *)

Module example.

(** 2024-01-15 10:00:00 UTC, in microseconds since the epoch. *)
Definition ten_o_clock : Z := 1705312800 * 1000000.

(** Offsets of two time zones from UTC, in seconds. *)
Definition utc_plus_0530 : Z := 19800.
Definition utc_minus_0500 : Z := -18000.

(** The rows of the examples about "lunch". *)
Definition lunch (i created : Z) : db_helper.expense :=
  db_helper.mk_expense i 100 "FOOD" (Some "lunch"%string) "2024-01-15" created.


(** A store with three small expenses: 0.10 on FOOD, 0.10 on RENT and 1.10
    on FOOD, recorded in this order. *)
Definition small_ledger : db_helper.database :=
  world.run
    [world.add 0.1 "FOOD" "2024-01-15" (Some "tea"%string) (world.clock_at 0 ten_o_clock);
     world.add 0.1 "RENT" "2024-01-15" (Some "key"%string) (world.clock_at 0 ten_o_clock);
     world.add 1.1 "FOOD" "2024-01-15" (Some "bun"%string) (world.clock_at 0 ten_o_clock)]
    world.fresh.

End example.

Module scenario.

(** Status of the second outcome and number of stored rows after the same
    expense was recorded twice ([world.add_twice]). *)
Definition second_status
    (r : py.result db_helper.outcome * py.result db_helper.outcome * db_helper.database)
    : option string :=
  match r with
  | (_, py.Return o, _) => Some (db_helper.status o)
  | _ => None
  end.

Definition stored_rows
    (r : py.result db_helper.outcome * py.result db_helper.outcome * db_helper.database)
    : nat :=
  match r with
  | (_, _, db) => List.length (db_helper.personal_expenses db)
  end.

End scenario.

Module request.

(** The request object with another [description] member. *)
Definition with_description (d : app.json_object) (s : app.description_field)
    : app.json_object :=
  app.mk_json_object (app.amount d) (app.category d) (app.date d) s.

(** A request for 12.50 on FOOD with the given amount, category and
    description members. *)
Definition post (amount_ category_ : py.value) (description_ : app.description_field)
    : app.json_body :=
  app.data (app.mk_json_object amount_ category_ (Some "2024-01-15"%string) description_).

(** The amount of a request is missing (a false body, no member, null), not
    a number ([float] raises ValueError or TypeError), or at most 0. *)
Definition amount_invalid (float_of_int : Z -> option float)
    (float_of_str : string -> option float) (body : app.json_body) : Prop :=
  match body with
  | app.no_data => True
  | app.not_an_object => False
  | app.data d =>
      app.amount d = py.None_ \/
      app.float_ float_of_int float_of_str (app.amount d) = py.Raise py.ValueError \/
      app.float_ float_of_int float_of_str (app.amount d) = py.Raise py.TypeError \/
      exists f, app.float_ float_of_int float_of_str (app.amount d) = py.Return f /\
                (f <=? 0)%float = true
  end.

(** The category of a request is missing (no member, null, empty) or a text
    whose upper-case form is not in the list. *)
Definition category_invalid (upper : string -> string) (d : app.json_object) : Prop :=
  py.truthy (app.category d) = false \/
  exists c0, app.category d = py.Str_ c0 /\
             py.str_in (upper c0) app.VALID_CATEGORIES = false.

(** The text a [description] member stands for when it is not null. *)
Definition text_of (s : app.description_field) : string :=
  match s with
  | app.text t => t
  | _ => ""
  end.

(** The response is a client error. *)
Definition client_error (r : app.response) : Prop :=
  exists msg, r = (app.error msg, 400).

End request.

(* ------------------------------------------------------------------------- *)
(** ** app.py: the two informational routes                                   *)
(* ------------------------------------------------------------------------- *)

Module app_info.

(** GET /health: the two members of the answer and its status code. *)
Definition health_check : (string * string) * Z :=
  (("ok", "Expense Tracker API is running")%string, 200).

(** GET /categories: the member [categories] of the answer and its status
    code. *)
Definition get_categories : list string * Z := (app.VALID_CATEGORIES, 200).

End app_info.

(* ------------------------------------------------------------------------- *)
(** ** frontend.py: what the page sends and how it reads the answers          *)
(* ------------------------------------------------------------------------- *)

Module frontend.

(** What [call_api] hands back: [None] when the request failed (no
    connection, timeout, any other exception), else the status code of the
    response and, for GET /categories, the member [categories] of its JSON
    body when it has one. *)
Definition categories_response : Type := option (Z * option (list string)).

(** [get_categories]: the list of the API when it answered 200 (the empty
    list when the body has no such member), else the list built into the
    page. *)
Definition get_categories (response : categories_response) : list string :=
  match response with
  | Some (code, body) =>
      if code =? 200 then
        match body with
        | Some categories => categories
        | None => []
        end
      else
        ["FOOD"; "RENT"; "TRANSPORT"; "GROCERIES"; "UTILITIES";
         "ENTERTAINMENT"; "HEALTH"; "EDUCATION"; "SHOPPING"; "TRAVEL"; "OTHER"]%string
  | None =>
      ["FOOD"; "RENT"; "TRANSPORT"; "GROCERIES"; "UTILITIES";
       "ENTERTAINMENT"; "HEALTH"; "EDUCATION"; "SHOPPING"; "TRAVEL"; "OTHER"]%string
  end.

(** [call_api("/categories")] against this API. *)
Definition categories_from_api : categories_response :=
  Some (snd app_info.get_categories, Some (fst app_info.get_categories)).

(** [expense_data]: the body the form posts. [amount] comes from a number
    input, [category] from a select box, [description] from a text input
    and [date] is [expense_date.strftime("%Y-%m-%d")]. *)
Definition expense_data (amount : float) (category description date : string)
    : app.json_object :=
  app.mk_json_object (py.Float_ amount) (py.Str_ category) (Some date)
    (app.text (if py.truthy (py.Str_ description) then description else "")).

(** [params]: the query of the list request, from the two select boxes. *)
Definition params (filter_category sort_order : string)
    : option string * option string :=
  (if negb (filter_category =? "All")%string then Some filter_category else None,
   if (sort_order =? "Newest First")%string then Some "date_desc"%string else None).

(** The text shown for a description: [expense.get('description', '-') or
    '-']. *)
Definition shown_description (d : option string) : string :=
  match d with
  | Some s => if py.truthy (py.Str_ s) then s else "-"
  | None => "-"
  end.

(** [bool(response)] of a [requests.Response]: its [ok], false exactly for
    the status codes 400 to 599. *)
Definition response_truthy (status_code : Z) : bool :=
  negb ((400 <=? status_code) && (status_code <? 600)).

(** What the page shows after the delete button of a row was pressed. *)
Inductive notice : Type :=
| deleted_notice
| not_found_notice
| failed_notice.

(** The branches under the delete button, on what [call_api] handed back:
    [None], or the status code of the response. *)
Definition delete_notice (delete_response : option Z) : notice :=
  match delete_response with
  | Some status_code =>
      if response_truthy status_code && (status_code =? 200) then deleted_notice
      else if response_truthy status_code && (status_code =? 404) then not_found_notice
      else failed_notice
  | None => failed_notice
  end.

End frontend.

Module page.

(** The two ways the page can come by its category list: the request to
    GET /categories was answered by this API, or it failed ([call_api] gave
    [None], or the status was not 200). *)
Definition from_api_or_failed (response : frontend.categories_response) : Prop :=
  response = frontend.categories_from_api \/
  match response with
  | None => True
  | Some (code, _) => code <> 200
  end.

(** The store query behind the list request of the page. *)
Definition listing (filter_category sort_order : string) (db : db_helper.database)
    : list db_helper.expense :=
  db_helper.get_expenses
    (if (filter_category =? "All")%string then None else Some filter_category)
    (sort_order =? "Newest First")%string db.

Definition total (filter_category : string) (db : db_helper.database) : float :=
  db_helper.get_total_expenses
    (if (filter_category =? "All")%string then None else Some filter_category) db.

End page.

(* ========================================================================= *)
(** * Properties                                                              *)
(* ========================================================================= *)

(* ------------------------------------------------------------------------- *)
(** ** Floats                                                                 *)
(* ------------------------------------------------------------------------- *)

Lemma float_eqb_refl (x : float) : is_nan x = false -> (x =? x)%float = true.
Proof.
  unfold is_nan. now destruct (x =? x)%float.
Qed.

Lemma SFeqb_refl (s : spec_float) : s <> S754_nan -> SFeqb s s = true.
Proof.
  unfold SFeqb, SFcompare.
  destruct s as [b | b | | b m e]; intros H; try congruence;
    try (destruct b; reflexivity).
  destruct b; rewrite Z.compare_refl;
    try rewrite Pos.compare_cont_refl; try rewrite Pos.compare_refl; reflexivity.
Qed.

(** Nothing equals a NaN. *)
Lemma float_eqb_not_nan (x a : float) : (x =? a)%float = true -> is_nan a = false.
Proof.
  unfold is_nan. rewrite !eqb_spec. intros H.
  rewrite SFeqb_refl; [reflexivity|].
  intros E. rewrite E in H. unfold SFeqb, SFcompare in H.
  destruct (Prim2SF x) as [b | b | | b m e]; try destruct b; discriminate.
Qed.

(** A NaN is not [<= 0]. *)
Lemma float_nan_not_leb (x : float) : is_nan x = true -> (x <=? 0)%float = false.
Proof.
  unfold is_nan. rewrite leb_spec, eqb_spec. intros H.
  destruct (Prim2SF x) as [b | b | | b m e] eqn:E; [| |reflexivity|];
    rewrite SFeqb_refl in H by discriminate; discriminate.
Qed.

(** A float that is neither NaN nor [<= 0] is [> 0]. *)
Lemma float_not_leb_pos (x : float) :
  is_nan x = false -> (x <=? 0)%float = false -> (0 <? x)%float = true.
Proof.
  unfold is_nan. rewrite leb_spec, ltb_spec, eqb_spec.
  destruct (Prim2SF x) as [s | s | | s m e]; simpl;
    try destruct s; simpl; auto; discriminate.
Qed.

(* ------------------------------------------------------------------------- *)
(** ** ORDER BY                                                               *)
(* ------------------------------------------------------------------------- *)

Section OrderByFacts.
Context {A : Type} (le : A -> A -> bool).

Lemma insert_sorted_perm (x : A) (l : list A) :
  Permutation (sql.insert_sorted le x l) (x :: l).
Proof.
  induction l as [|y l IH]; simpl; [reflexivity|].
  destruct (le x y); [reflexivity|].
  rewrite IH. apply perm_swap.
Qed.

Lemma order_by_perm (l : list A) : Permutation (sql.order_by le l) l.
Proof.
  induction l as [|x l IH]; simpl; [constructor|].
  rewrite insert_sorted_perm. now constructor.
Qed.

Lemma order_by_In (l : list A) (x : A) : In x (sql.order_by le l) <-> In x l.
Proof.
  split; apply Permutation_in;
    [apply order_by_perm | apply Permutation_sym, order_by_perm].
Qed.

Hypothesis le_total : forall a b, le a b = false -> le b a = true.
Hypothesis le_trans : forall a b c, le a b = true -> le b c = true -> le a c = true.

Lemma insert_sorted_sorted (x : A) (l : list A) :
  StronglySorted (sql.precedes le) l -> StronglySorted (sql.precedes le) (sql.insert_sorted le x l).
Proof.
  induction 1 as [|y l Hl IH Hy]; simpl.
  - repeat constructor.
  - destruct (le x y) eqn:E.
    + constructor; [now constructor|].
      constructor; [exact E|].
      eapply Forall_impl; [|exact Hy].
      intros z Hz. unfold sql.precedes in *. eauto.
    + constructor; [exact IH|].
      apply (Permutation_Forall (Permutation_sym (insert_sorted_perm x l))).
      constructor; [apply le_total, E | exact Hy].
Qed.

Lemma order_by_sorted (l : list A) : StronglySorted (sql.precedes le) (sql.order_by le l).
Proof.
  induction l as [|x l IH]; simpl; [constructor|].
  now apply insert_sorted_sorted.
Qed.

End OrderByFacts.

(** In a strongly sorted list, of two members one stands before the other
    unless they are the same position. *)
Lemma sorted_before {A : Type} (R : A -> A -> Prop) (l : list A) (a b : A) :
  StronglySorted R l -> In a l -> In b l -> ~ R b a -> a <> b ->
  exists l1 l2 l3, l = l1 ++ a :: l2 ++ b :: l3.
Proof.
  induction 1 as [|x l Hl IH Hx]; intros Ha Hb Hba Hab; [contradiction|].
  rewrite Forall_forall in Hx.
  destruct Ha as [-> | Ha], Hb as [-> | Hb].
  - contradiction.
  - apply in_split in Hb as (l2 & l3 & ->). now exists [], l2, l3.
  - exfalso. apply Hba. auto.
  - destruct (IH Ha Hb Hba Hab) as (l1 & l2 & l3 & ->).
    now exists (x :: l1), l2, l3.
Qed.

(* ------------------------------------------------------------------------- *)
(** ** check_duplicate                                                        *)
(* ------------------------------------------------------------------------- *)

(** The WHERE clause of [check_duplicate], column by column: the description
    matches only a description equal to it (NULL with NULL, a text with the
    same text). *)
Lemma duplicate_where_holds (a : float) (c d : string) (s : option string)
    (th : Z) (row : db_helper.expense) :
  sql.holds (db_helper.duplicate_where a c d s th row) = true <->
  is_nan a = false /\ spec.same_content a c d s row /\ th <= db_helper.created_at row.
Proof.
  unfold db_helper.duplicate_where, spec.same_content, sql.bind_real.
  destruct (is_nan a); simpl;
    destruct (db_helper.amount row =? a)%float;
    destruct (String.eqb_spec (db_helper.category row) c);
    destruct (String.eqb_spec (db_helper.expense_date row) d);
    destruct (db_helper.description row) as [x|], s as [y|]; simpl;
    try destruct (String.eqb_spec x y);
    destruct (Z.leb_spec th (db_helper.created_at row)); simpl;
    split; intros Hw; try discriminate;
    try (destruct Hw as (Hw1 & (Hw2 & Hw3 & Hw4 & Hw5) & Hw6));
    try discriminate; try congruence; try lia;
    repeat split; subst; auto.
Qed.

(** The clause only gets harder to meet as the threshold grows. *)
Lemma duplicate_where_threshold (a : float) (c d : string) (s : option string)
    (th th' : Z) (row : db_helper.expense) :
  th <= th' ->
  sql.holds (db_helper.duplicate_where a c d s th' row) = true ->
  sql.holds (db_helper.duplicate_where a c d s th row) = true.
Proof.
  rewrite !duplicate_where_holds. intuition lia.
Qed.

Lemma check_duplicate_Some (a : float) (c d : string) (s : option string)
    (m now : Z) (db : db_helper.database) (e : db_helper.expense) :
  db_helper.check_duplicate a c d s m now db = Some e ->
  In e (db_helper.personal_expenses db) /\
  sql.holds (db_helper.duplicate_where a c d s (db_helper.time_threshold now m) e) = true.
Proof.
  unfold db_helper.check_duplicate, sql.limit_1. intros H.
  set (keep := fun row => sql.holds _) in H.
  apply (filter_In keep).
  rewrite <- (order_by_In db_helper.created_at_desc).
  destruct (sql.order_by _ _) as [|x l]; [discriminate|].
  injection H as ->. now left.
Qed.

Lemma check_duplicate_None (a : float) (c d : string) (s : option string)
    (m now : Z) (db : db_helper.database) :
  db_helper.check_duplicate a c d s m now db = None <->
  forall row, In row (db_helper.personal_expenses db) ->
    sql.holds (db_helper.duplicate_where a c d s (db_helper.time_threshold now m) row) = false.
Proof.
  unfold db_helper.check_duplicate, sql.limit_1.
  set (keep := fun row => sql.holds _).
  split.
  - intros H row Hin.
    destruct (keep row) eqn:E; [|exact E].
    assert (Hm : In row (sql.order_by db_helper.created_at_desc
                           (filter keep (db_helper.personal_expenses db)))).
    { apply order_by_In, filter_In. auto. }
    destruct (sql.order_by _ _); [contradiction | discriminate].
  - intros H.
    destruct (sql.order_by _ _) as [|x l] eqn:E; [reflexivity|].
    assert (Hx : In x (filter keep (db_helper.personal_expenses db))).
    { apply (order_by_In db_helper.created_at_desc). rewrite E. now left. }
    apply filter_In in Hx as [Hin Hk]. unfold keep in Hk.
    rewrite (H x Hin) in Hk. discriminate.
Qed.

(** A duplicate is found exactly when some row meets the clause. *)
Lemma check_duplicate_found (a : float) (c d : string) (s : option string)
    (m now : Z) (db : db_helper.database) (row : db_helper.expense) :
  In row (db_helper.personal_expenses db) ->
  sql.holds (db_helper.duplicate_where a c d s (db_helper.time_threshold now m) row) = true ->
  exists e, db_helper.check_duplicate a c d s m now db = Some e.
Proof.
  intros Hin Hrow.
  destruct (db_helper.check_duplicate a c d s m now db) as [e|] eqn:E; [eauto|].
  rewrite check_duplicate_None in E. rewrite (E row Hin) in Hrow. discriminate.
Qed.

(* ------------------------------------------------------------------------- *)
(** ** add_expense                                                            *)
(* ------------------------------------------------------------------------- *)

Lemma max_rowid_bound (rows : list db_helper.expense) (r : db_helper.expense) :
  In r rows -> db_helper.id r <= db_helper.max_rowid rows.
Proof.
  induction rows as [|x rows IH]; simpl; [contradiction|].
  intros [-> | H]; [lia|]. specialize (IH H). lia.
Qed.

Lemma next_rowid_fresh (db : db_helper.database) (r : db_helper.expense) :
  In r (db_helper.personal_expenses db) -> db_helper.id r < db_helper.next_rowid db.
Proof.
  intros H. apply max_rowid_bound in H. unfold db_helper.next_rowid. lia.
Qed.

Lemma next_rowid_above_sequence (db : db_helper.database) :
  db_helper.sqlite_sequence db < db_helper.next_rowid db.
Proof.
  unfold db_helper.next_rowid. lia.
Qed.

Lemma select_by_id_appended (rows : list db_helper.expense) (row : db_helper.expense)
    (seq : Z) :
  (forall r, In r rows -> db_helper.id r <> db_helper.id row) ->
  db_helper.select_by_id (db_helper.id row) (db_helper.mk_database (rows ++ [row]) seq)
  = Some row.
Proof.
  unfold db_helper.select_by_id. simpl.
  induction rows as [|x rows IH]; simpl; intros H.
  - now rewrite Z.eqb_refl.
  - destruct (Z.eqb_spec (db_helper.id x) (db_helper.id row)) as [E|_].
    + exfalso. apply (H x); auto.
    + apply IH. intros r Hr. apply H. auto.
Qed.

Lemma add_expense_duplicate (a : float) (c d : string) (s : option string)
    (clk : db_helper.clock) (db : db_helper.database) (e : db_helper.expense) :
  db_helper.check_duplicate a c d s 5 (db_helper.datetime_now clk) db = Some e ->
  db_helper.add_expense a c d s clk db =
  (py.Return (db_helper.mk_outcome "duplicate" e
                "Duplicate expense detected. Returning existing record."), db).
Proof.
  intros H. unfold db_helper.add_expense. now rewrite H.
Qed.

Lemma add_expense_created (a : float) (c d : string) (s : option string)
    (clk : db_helper.clock) (db : db_helper.database) :
  db_helper.check_duplicate a c d s 5 (db_helper.datetime_now clk) db = None ->
  is_nan a = false ->
  py.str_in c db_helper.category_check = true ->
  db_helper.add_expense a c d s clk db =
  (py.Return (db_helper.mk_outcome "created" (spec.new_row a c d s clk db)
                "Expense created successfully."),
   db_helper.mk_database
     (db_helper.personal_expenses db ++ [spec.new_row a c d s clk db])
     (db_helper.next_rowid db)).
Proof.
  intros Hcheck Hnan Hcat.
  unfold db_helper.add_expense, db_helper.insert_expense, sql.bind_real.
  rewrite Hcheck, Hnan, Hcat.
  change (db_helper.mk_expense (db_helper.next_rowid db) a c s d
            (db_helper.CURRENT_TIMESTAMP clk)) with (spec.new_row a c d s clk db).
  change (db_helper.next_rowid db) with (db_helper.id (spec.new_row a c d s clk db)) at 1.
  rewrite select_by_id_appended; [reflexivity|].
  intros r Hr. apply next_rowid_fresh in Hr. simpl. lia.
Qed.

Lemma add_expense_refused (a : float) (c d : string) (s : option string)
    (clk : db_helper.clock) (db : db_helper.database) :
  db_helper.check_duplicate a c d s 5 (db_helper.datetime_now clk) db = None ->
  is_nan a = true \/ py.str_in c db_helper.category_check = false ->
  db_helper.add_expense a c d s clk db = (py.Raise py.IntegrityError, db).
Proof.
  intros Hcheck H.
  unfold db_helper.add_expense, db_helper.insert_expense, sql.bind_real.
  rewrite Hcheck.
  destruct (is_nan a); [reflexivity|].
  destruct H as [H|H]; [discriminate | now rewrite H].
Qed.

(** The three ways a call of [add_expense] can go. *)
Lemma add_expense_cases (a : float) (c d : string) (s : option string)
    (clk : db_helper.clock) (db : db_helper.database) :
  (exists e,
      db_helper.check_duplicate a c d s 5 (db_helper.datetime_now clk) db = Some e /\
      db_helper.add_expense a c d s clk db =
      (py.Return (db_helper.mk_outcome "duplicate" e
                    "Duplicate expense detected. Returning existing record."), db))
  \/ (db_helper.check_duplicate a c d s 5 (db_helper.datetime_now clk) db = None /\
      is_nan a = false /\ py.str_in c db_helper.category_check = true /\
      db_helper.add_expense a c d s clk db =
      (py.Return (db_helper.mk_outcome "created" (spec.new_row a c d s clk db)
                    "Expense created successfully."),
       db_helper.mk_database
         (db_helper.personal_expenses db ++ [spec.new_row a c d s clk db])
         (db_helper.next_rowid db)))
  \/ (db_helper.check_duplicate a c d s 5 (db_helper.datetime_now clk) db = None /\
      db_helper.add_expense a c d s clk db = (py.Raise py.IntegrityError, db)).
Proof.
  destruct (db_helper.check_duplicate a c d s 5 (db_helper.datetime_now clk) db)
    as [e|] eqn:Hcheck.
  - left. exists e. split; [reflexivity|]. now apply add_expense_duplicate.
  - right.
    destruct (is_nan a) eqn:Hnan.
    { right. split; [reflexivity|]. apply add_expense_refused; auto. }
    destruct (py.str_in c db_helper.category_check) eqn:Hcat.
    + left. repeat split; auto. now apply add_expense_created.
    + right. split; [reflexivity|]. apply add_expense_refused; auto.
Qed.

(* ------------------------------------------------------------------------- *)
(** ** What every reachable database satisfies                                *)
(* ------------------------------------------------------------------------- *)

Lemma strongly_sorted_snoc {A : Type} (R : A -> A -> Prop) (l : list A) (y : A) :
  StronglySorted R l -> Forall (fun x => R x y) l -> StronglySorted R (l ++ [y]).
Proof.
  induction 1 as [|x l Hl IH Hx]; simpl; intros Hy.
  - repeat constructor.
  - inversion Hy as [|? ? Hxy Hrest]; subst.
    constructor; [auto|].
    apply Forall_app. split; [assumption | now constructor].
Qed.

Lemma strongly_sorted_filter {A : Type} (R : A -> A -> Prop) (f : A -> bool)
    (l : list A) :
  StronglySorted R l -> StronglySorted R (filter f l).
Proof.
  induction 1 as [|x l Hl IH Hx]; simpl; [constructor|].
  destruct (f x); [|assumption].
  constructor; [assumption|].
  rewrite Forall_forall in *. intros y Hy. apply Hx.
  now apply filter_In in Hy.
Qed.

Lemma forall_filter {A : Type} (P : A -> Prop) (f : A -> bool) (l : list A) :
  Forall P l -> Forall P (filter f l).
Proof.
  rewrite !Forall_forall. intros H x Hx. apply H. now apply filter_In in Hx.
Qed.

Lemma str_in_In (x : string) (xs : list string) :
  py.str_in x xs = true <-> In x xs.
Proof.
  unfold py.str_in. rewrite existsb_exists. split.
  - intros (y & Hy & E). apply String.eqb_eq in E. now subst.
  - intros H. exists x. split; [assumption | apply String.eqb_refl].
Qed.

Lemma well_formed_fresh : spec.well_formed world.fresh.
Proof.
  split; simpl; constructor.
Qed.

Lemma well_formed_add_expense (a : float) (c d : string) (s : option string)
    (clk : db_helper.clock) (db : db_helper.database) :
  spec.well_formed db ->
  spec.well_formed (snd (db_helper.add_expense a c d s clk db)).
Proof.
  intros [Hsorted Hseq Hamount Hcat].
  destruct (add_expense_cases a c d s clk db)
    as [(e & _ & ->) | [(_ & Hnan & Hin & ->) | (_ & ->)]]; simpl;
    try (split; assumption).
  split; simpl.
  - apply strongly_sorted_snoc; [assumption|].
    rewrite Forall_forall. intros r Hr. simpl. now apply next_rowid_fresh.
  - apply Forall_app. split.
    + eapply Forall_impl; [|exact Hseq]. simpl. intros r Hr.
      pose proof (next_rowid_above_sequence db). lia.
    + constructor; [simpl; lia | constructor].
  - apply Forall_app. split; [assumption|].
    constructor; [exact Hnan | constructor].
  - apply Forall_app. split; [assumption|].
    constructor; [exact (proj1 (str_in_In c db_helper.category_check) Hin) | constructor].
Qed.

Lemma well_formed_delete_expense (i : Z) (db : db_helper.database) :
  spec.well_formed db ->
  spec.well_formed (snd (db_helper.delete_expense i db)).
Proof.
  intros [Hsorted Hseq Hamount Hcat].
  unfold db_helper.delete_expense.
  destruct (db_helper.select_by_id i db); simpl; [|split; assumption].
  split; simpl;
    [now apply strongly_sorted_filter | now apply forall_filter ..].
Qed.

Lemma well_formed_run_call (c : world.call) (db : db_helper.database) :
  spec.well_formed db -> spec.well_formed (world.run_call c db).
Proof.
  destruct c; simpl;
    [apply well_formed_add_expense | apply well_formed_delete_expense].
Qed.

Lemma well_formed_run (calls : list world.call) (db : db_helper.database) :
  spec.well_formed db -> spec.well_formed (world.run calls db).
Proof.
  revert db. induction calls as [|c calls IH]; simpl; intros db H; [assumption|].
  now apply IH, well_formed_run_call.
Qed.


(* ------------------------------------------------------------------------- *)
(** ** Duplicate suppression and the two clocks                               *)
(* ------------------------------------------------------------------------- *)

Lemma filter_all {A : Type} (f : A -> bool) (l : list A) :
  (forall x, In x l -> f x = true) -> filter f l = l.
Proof.
  induction l as [|x l IH]; intros H; [reflexivity|]. simpl.
  rewrite (H x (or_introl eq_refl)). f_equal. apply IH.
  intros y Hy. apply H. now right.
Qed.

Lemma filter_none {A : Type} (f : A -> bool) (l : list A) :
  (forall x, In x l -> f x = false) -> filter f l = [].
Proof.
  induction l as [|x l IH]; simpl; intros H; [reflexivity|].
  rewrite (H x) by auto. apply IH. auto.
Qed.

Lemma time_threshold_mono (now now' m : Z) :
  now <= now' -> db_helper.time_threshold now m <= db_helper.time_threshold now' m.
Proof.
  intros H. unfold db_helper.time_threshold. apply Z.div_le_mono; lia.
Qed.

(** The window the code applies, in seconds of UTC: a row counts as recent
    when its [created_at] is at least the second of the call, plus the
    offset of the host from UTC, minus 300. *)
Theorem effective_window (utc_offset instant : Z) :
  db_helper.time_threshold
    (db_helper.datetime_now (world.clock_at utc_offset instant)) 5
  = instant / 1000000 + utc_offset - 300.
Proof.
  unfold db_helper.time_threshold, world.clock_at. cbn [db_helper.datetime_now].
  replace (instant + utc_offset * 1000000 - 5 * 60 * 1000000)
    with (instant + (utc_offset - 300) * 1000000) by lia.
  rewrite Z.div_add by lia. lia.
Qed.

(** Exactly one row meets the clause: it is the duplicate. *)
Lemma check_duplicate_last (a : float) (c d : string) (s : option string)
    (m now seq : Z) (rows : list db_helper.expense) (row : db_helper.expense) :
  (forall r, In r rows ->
     sql.holds (db_helper.duplicate_where a c d s (db_helper.time_threshold now m) r)
     = false) ->
  sql.holds (db_helper.duplicate_where a c d s (db_helper.time_threshold now m) row)
  = true ->
  db_helper.check_duplicate a c d s m now (db_helper.mk_database (rows ++ [row]) seq)
  = Some row.
Proof.
  intros Hrows Hrow. unfold db_helper.check_duplicate. simpl.
  rewrite filter_app, (filter_none _ rows Hrows). simpl.
  now rewrite Hrow.
Qed.

(** C1 (the code departs from the design document): on a host five and a
    half hours ahead of UTC, recording (100.00, FOOD, 2024-01-15, "lunch") at
    10:00:00 UTC and again one second later stores two rows, and the second
    outcome is "created". The first row's [created_at] is the UTC second
    10:00:00, the threshold of the second call is local 15:30:01 minus five
    minutes, so the row one second old is taken to be outside the window. *)
Theorem C1_duplicate_missed_ahead_of_utc :
  world.add_twice example.utc_plus_0530 100 "FOOD" "2024-01-15"
    (Some "lunch"%string) (Some "lunch"%string)
    example.ten_o_clock (example.ten_o_clock + world.seconds 1) world.fresh
  = (py.Return (spec.created_outcome (example.lunch 1 1705312800)),
     py.Return (spec.created_outcome (example.lunch 2 1705312801)),
     db_helper.mk_database
       [example.lunch 1 1705312800; example.lunch 2 1705312801] 2).
Proof.
  vm_compute. reflexivity.
Qed.

(** C2 (the code departs from the design document): on a host five hours
    behind UTC, recording the same expense again a full hour later is
    answered "duplicate" and stores nothing: the threshold of the second call
    is local 06:00:00 minus five minutes, which the UTC [created_at] 10:00:00
    of the first row still exceeds. *)
Theorem C2_duplicate_reported_behind_utc :
  world.add_twice example.utc_minus_0500 100 "FOOD" "2024-01-15"
    (Some "lunch"%string) (Some "lunch"%string)
    example.ten_o_clock (example.ten_o_clock + world.minutes 60) world.fresh
  = (py.Return (spec.created_outcome (example.lunch 1 1705312800)),
     py.Return (spec.duplicate_outcome (example.lunch 1 1705312800)),
     db_helper.mk_database [example.lunch 1 1705312800] 1).
Proof.
  vm_compute. reflexivity.
Qed.

(** Even where local time is UTC the cut to whole seconds lets a row that
    is 300.9 s old count as inside the window. *)
Example window_cut_to_seconds :
  world.add_twice 0 100 "FOOD" "2024-01-15" (Some "lunch"%string) (Some "lunch"%string)
    example.ten_o_clock
    (example.ten_o_clock + world.minutes 5 + 900000) world.fresh
  = (py.Return (spec.created_outcome (example.lunch 1 1705312800)),
     py.Return (spec.duplicate_outcome (example.lunch 1 1705312800)),
     db_helper.mk_database [example.lunch 1 1705312800] 1).
Proof.
  vm_compute. reflexivity.
Qed.

(** Whatever the clocks show: when a stored row has the content of the
    submission and a [created_at] not below the threshold the call computes,
    [add_expense] changes nothing and answers "duplicate" with a stored row
    of that content from inside the window. *)
Theorem duplicate_leaves_store (a : float) (c d : string) (s : option string)
    (clk : db_helper.clock) (db : db_helper.database) (row : db_helper.expense) :
  In row (db_helper.personal_expenses db) ->
  spec.same_content a c d s row ->
  db_helper.time_threshold (db_helper.datetime_now clk) 5 <= db_helper.created_at row ->
  exists e,
    db_helper.add_expense a c d s clk db = (py.Return (spec.duplicate_outcome e), db) /\
    In e (db_helper.personal_expenses db) /\
    spec.same_content a c d s e /\
    db_helper.time_threshold (db_helper.datetime_now clk) 5 <= db_helper.created_at e.
Proof.
  intros Hin Hsame Hth.
  assert (Hnan : is_nan a = false).
  { destruct Hsame as (E & _). exact (float_eqb_not_nan _ _ E). }
  destruct (check_duplicate_found a c d s 5 (db_helper.datetime_now clk) db row Hin)
    as [e He].
  { apply duplicate_where_holds. auto. }
  exists e. split; [now apply add_expense_duplicate|].
  apply check_duplicate_Some in He as [Hine Hw].
  apply duplicate_where_holds in Hw as (_ & Hc & Ht). auto.
Qed.

Lemma duplicate_leaves_store_witness :
  exists e,
    db_helper.add_expense 100 "FOOD" "2024-01-15" (Some "lunch"%string)
      (world.clock_at 0 (example.ten_o_clock + world.seconds 1))
      (db_helper.mk_database [example.lunch 1 1705312800] 1)
    = (py.Return (spec.duplicate_outcome e),
       db_helper.mk_database [example.lunch 1 1705312800] 1) /\
    In e [example.lunch 1 1705312800] /\
    spec.same_content 100 "FOOD" "2024-01-15" (Some "lunch"%string) e /\
    db_helper.time_threshold
      (db_helper.datetime_now (world.clock_at 0 (example.ten_o_clock + world.seconds 1))) 5
    <= db_helper.created_at e.
Proof.
  apply (duplicate_leaves_store 100 "FOOD" "2024-01-15" (Some "lunch"%string)
           (world.clock_at 0 (example.ten_o_clock + world.seconds 1))
           (db_helper.mk_database [example.lunch 1 1705312800] 1)
           (example.lunch 1 1705312800)).
  - simpl. left. reflexivity.
  - repeat split; reflexivity.
  - vm_compute. discriminate.
Defined.

(** Where the local clock is not ahead of UTC, recording an expense and
    recording it again at most five minutes later stores one row: the second
    call answers "duplicate" with the row the first call created. *)
Theorem recorded_twice_within_window (utc_offset : Z) (a : float) (c d : string)
    (s : option string) (t1 t2 : Z) (db db1 : db_helper.database)
    (o1 : db_helper.outcome) :
  utc_offset <= 0 ->
  t1 <= t2 <= t1 + world.minutes 5 ->
  db_helper.add_expense a c d s (world.clock_at utc_offset t1) db = (py.Return o1, db1) ->
  db_helper.status o1 = "created"%string ->
  db_helper.add_expense a c d s (world.clock_at utc_offset t2) db1
  = (py.Return (spec.duplicate_outcome (db_helper.expense_ o1)), db1) /\
  db_helper.personal_expenses db1
  = db_helper.personal_expenses db ++ [db_helper.expense_ o1].
Proof.
  intros Hoff Ht Hfirst Hstatus.
  destruct (add_expense_cases a c d s (world.clock_at utc_offset t1) db)
    as [(e & _ & E) | [(Hnone & Hnan & _ & E) | (_ & E)]];
    rewrite E in Hfirst; try discriminate.
  { injection Hfirst as <- <-. discriminate. }
  injection Hfirst as <- <-. simpl. split; [|reflexivity].
  apply add_expense_duplicate. apply check_duplicate_last.
  - rewrite check_duplicate_None in Hnone. intros r Hr.
    specialize (Hnone r Hr).
    destruct (sql.holds (db_helper.duplicate_where a c d s
                (db_helper.time_threshold
                   (db_helper.datetime_now (world.clock_at utc_offset t2)) 5) r))
      eqn:E2; [|reflexivity].
    rewrite <- Hnone. symmetry.
    eapply duplicate_where_threshold; [|exact E2].
    apply time_threshold_mono. simpl. lia.
  - apply duplicate_where_holds. split; [assumption|]. split.
    + repeat split. simpl. now apply float_eqb_refl.
    + unfold db_helper.time_threshold, world.minutes in *. simpl.
      apply Z.div_le_mono; lia.
Qed.

Lemma recorded_twice_within_window_witness :
  db_helper.add_expense 100 "FOOD" "2024-01-15" (Some "lunch"%string)
    (world.clock_at 0 (example.ten_o_clock + world.minutes 5))
    (db_helper.mk_database [example.lunch 1 1705312800] 1)
  = (py.Return (spec.duplicate_outcome (example.lunch 1 1705312800)),
     db_helper.mk_database [example.lunch 1 1705312800] 1) /\
  [example.lunch 1 1705312800] = [] ++ [example.lunch 1 1705312800].
Proof.
  apply (recorded_twice_within_window 0 100 "FOOD" "2024-01-15" (Some "lunch"%string)
           example.ten_o_clock (example.ten_o_clock + world.minutes 5) world.fresh
           (db_helper.mk_database [example.lunch 1 1705312800] 1)
           (spec.created_outcome (example.lunch 1 1705312800))).
  - lia.
  - unfold world.minutes. lia.
  - vm_compute. reflexivity.
  - reflexivity.
Defined.

(** No stored row has the id of the row about to be inserted. *)
Lemma new_row_id_fresh (a : float) (c d : string) (s : option string)
    (clk : db_helper.clock) (db : db_helper.database) :
  Forall (fun row => db_helper.id row <> db_helper.id (spec.new_row a c d s clk db))
         (db_helper.personal_expenses db).
Proof.
  rewrite Forall_forall. intros row Hin. apply next_rowid_fresh in Hin. simpl. lia.
Qed.

(** When no stored row with the content of the submission reaches the
    threshold, a storable submission is inserted. *)
Lemma add_expense_inserts (a : float) (c d : string) (s : option string)
    (clk : db_helper.clock) (db : db_helper.database) :
  is_nan a = false ->
  In c db_helper.category_check ->
  (forall row, In row (db_helper.personal_expenses db) ->
     spec.same_content a c d s row ->
     db_helper.created_at row < db_helper.time_threshold (db_helper.datetime_now clk) 5) ->
  db_helper.add_expense a c d s clk db
  = (py.Return (spec.created_outcome (spec.new_row a c d s clk db)),
     db_helper.mk_database
       (db_helper.personal_expenses db ++ [spec.new_row a c d s clk db])
       (db_helper.next_rowid db)).
Proof.
  intros Hnan Hcat Hold.
  apply add_expense_created; [|assumption | now apply str_in_In].
  apply check_duplicate_None. intros row Hin.
  destruct (sql.holds _) eqn:E; [|reflexivity].
  apply duplicate_where_holds in E as (_ & Hsame & Hth).
  specialize (Hold row Hin Hsame). lia.
Qed.

(** Whatever the clocks show: when every stored row with the content of the
    submission has a [created_at] below the threshold the call computes, a
    storable submission for a calendar date written YYYY-MM-DD is inserted
    as a new row, at the end of the table and under an id no stored row
    has. (A date text that reads as a number is outside this statement: the
    store compares and keeps it as a number.) *)
Theorem insert_outside_window (a : float) (c d : string) (s : option string)
    (clk : db_helper.clock) (db : db_helper.database) :
  is_nan a = false ->
  In c db_helper.category_check ->
  spec.calendar_date d = true ->
  (forall row, In row (db_helper.personal_expenses db) ->
     spec.same_content a c d s row ->
     db_helper.created_at row < db_helper.time_threshold (db_helper.datetime_now clk) 5) ->
  db_helper.add_expense a c d s clk db
  = (py.Return (spec.created_outcome (spec.new_row a c d s clk db)),
     db_helper.mk_database
       (db_helper.personal_expenses db ++ [spec.new_row a c d s clk db])
       (db_helper.next_rowid db)) /\
  Forall (fun row => db_helper.id row <> db_helper.id (spec.new_row a c d s clk db))
         (db_helper.personal_expenses db).
Proof.
  intros Hnan Hcat _ Hold. split.
  - now apply add_expense_inserts.
  - apply new_row_id_fresh.
Qed.

Lemma insert_outside_window_witness :
  db_helper.add_expense 100 "FOOD" "2024-01-15" (Some "lunch"%string)
    (world.clock_at 0 (example.ten_o_clock + world.minutes 6))
    (db_helper.mk_database [example.lunch 1 1705312800] 1)
  = (py.Return (spec.created_outcome (example.lunch 2 1705313160)),
     db_helper.mk_database [example.lunch 1 1705312800; example.lunch 2 1705313160] 2) /\
  Forall (fun row => db_helper.id row <> 2) [example.lunch 1 1705312800].
Proof.
  apply (insert_outside_window 100 "FOOD" "2024-01-15" (Some "lunch"%string)
           (world.clock_at 0 (example.ten_o_clock + world.minutes 6))
           (db_helper.mk_database [example.lunch 1 1705312800] 1)).
  - reflexivity.
  - simpl. auto.
  - reflexivity.
  - intros row [<- | []] _. vm_compute. reflexivity.
Defined.

(** Where the local clock is not behind UTC, a storable submission for a
    calendar date written YYYY-MM-DD is inserted as a new row as soon as
    every stored row of the same content was created more than 300 whole
    seconds before the second of the call. *)
Theorem recorded_again_after_window (utc_offset : Z) (a : float) (c d : string)
    (s : option string) (t : Z) (db : db_helper.database) :
  0 <= utc_offset ->
  is_nan a = false ->
  In c db_helper.category_check ->
  spec.calendar_date d = true ->
  (forall row, In row (db_helper.personal_expenses db) ->
     spec.same_content a c d s row ->
     db_helper.created_at row + 300 < t / 1000000) ->
  db_helper.add_expense a c d s (world.clock_at utc_offset t) db
  = (py.Return (spec.created_outcome
                  (spec.new_row a c d s (world.clock_at utc_offset t) db)),
     db_helper.mk_database
       (db_helper.personal_expenses db
          ++ [spec.new_row a c d s (world.clock_at utc_offset t) db])
       (db_helper.next_rowid db)) /\
  Forall (fun row => db_helper.id row
                     <> db_helper.id (spec.new_row a c d s (world.clock_at utc_offset t) db))
         (db_helper.personal_expenses db).
Proof.
  intros Hoff Hnan Hcat _ Hold.
  split; [|apply new_row_id_fresh].
  apply add_expense_inserts; [assumption | assumption |].
  intros row Hin Hsame. specialize (Hold row Hin Hsame).
  unfold db_helper.time_threshold, world.clock_at.
  cbn [db_helper.datetime_now].
  apply Z.lt_le_trans with (t / 1000000 - 300); [lia|].
  replace (t / 1000000 - 300) with ((t + (-300) * 1000000) / 1000000)
    by (rewrite Z.div_add; lia).
  apply Z.div_le_mono; lia.
Qed.

Lemma recorded_again_after_window_witness :
  db_helper.add_expense 100 "FOOD" "2024-01-15" (Some "lunch"%string)
    (world.clock_at 0 (example.ten_o_clock + world.minutes 6))
    (db_helper.mk_database [example.lunch 1 1705312800] 1)
  = (py.Return (spec.created_outcome (example.lunch 2 1705313160)),
     db_helper.mk_database [example.lunch 1 1705312800; example.lunch 2 1705313160] 2) /\
  Forall (fun row => db_helper.id row <> 2) [example.lunch 1 1705312800].
Proof.
  apply (recorded_again_after_window 0 100 "FOOD" "2024-01-15" (Some "lunch"%string)
           (example.ten_o_clock + world.minutes 6)
           (db_helper.mk_database [example.lunch 1 1705312800] 1)).
  - lia.
  - reflexivity.
  - simpl. auto.
  - reflexivity.
  - intros row [<- | []] _. vm_compute. reflexivity.
Defined.

(* ------------------------------------------------------------------------- *)
(** ** NULL and empty descriptions                                            *)
(* ------------------------------------------------------------------------- *)

Lemma max_rowid_nonneg (rows : list db_helper.expense) : 0 <= db_helper.max_rowid rows.
Proof.
  induction rows as [|x rows IH]; simpl; lia.
Qed.

Lemma max_rowid_snoc (rows : list db_helper.expense) (r : db_helper.expense) :
  db_helper.max_rowid (rows ++ [r])
  = Z.max (db_helper.max_rowid rows) (Z.max (db_helper.id r) 0).
Proof.
  induction rows as [|x rows IH]; simpl; [lia|]. rewrite IH. lia.
Qed.

(** The outcome of [add_expense] always carries the description that was
    submitted: a duplicate is only ever a row whose description is equal to
    it. *)
Lemma outcome_description (a : float) (c d : string) (s : option string)
    (clk : db_helper.clock) (db db' : db_helper.database) (o : db_helper.outcome) :
  db_helper.add_expense a c d s clk db = (py.Return o, db') ->
  db_helper.description (db_helper.expense_ o) = s.
Proof.
  intros H.
  destruct (add_expense_cases a c d s clk db)
    as [(e & He & E) | [(_ & _ & _ & E) | (_ & E)]];
    rewrite E in H; try discriminate; injection H as <- <-; simpl.
  - apply check_duplicate_Some in He as [_ Hw].
    apply duplicate_where_holds in Hw as (_ & (_ & _ & _ & Hd) & _). exact Hd.
  - reflexivity.
Qed.

(** C3 (does not hold as stated): recording (50, FOOD, 2024-01-15, "") and
    one second later (50, FOOD, 2024-01-15, null), local time being UTC,
    stores two rows and the second outcome is "created"; so it is in the
    other order. *)
Lemma C3_empty_then_null_is_no_duplicate :
  let empty_first :=
    world.add_twice 0 50 "FOOD" "2024-01-15" (Some ""%string) None
      example.ten_o_clock (example.ten_o_clock + world.seconds 1) world.fresh in
  let null_first :=
    world.add_twice 0 50 "FOOD" "2024-01-15" None (Some ""%string)
      example.ten_o_clock (example.ten_o_clock + world.seconds 1) world.fresh in
  scenario.second_status empty_first = Some "created"%string /\
  scenario.stored_rows empty_first = 2%nat /\
  scenario.second_status null_first = Some "created"%string /\
  scenario.stored_rows null_first = 2%nat.
Proof.
  vm_compute. repeat split; reflexivity.
Qed.

(** C3 (amended): the duplicate match takes a NULL description and an empty
    one for different values, as it does any two descriptions that are not
    equal. When no stored row has the amount, category and date of the
    submission, recording it with one description and then with a different
    one inserts two rows, both answered "created", however close in time the
    two calls are and whichever description comes first. *)
Theorem C3_different_descriptions_are_not_duplicates
    (utc_offset : Z) (a : float) (c d : string) (s1 s2 : option string)
    (t1 t2 : Z) (db : db_helper.database) :
  s1 <> s2 ->
  is_nan a = false ->
  In c db_helper.category_check ->
  (forall row, In row (db_helper.personal_expenses db) ->
     ~ ((db_helper.amount row =? a)%float = true /\
        db_helper.category row = c /\ db_helper.expense_date row = d)) ->
  let r1 := db_helper.mk_expense (db_helper.next_rowid db) a c s1 d (t1 / 1000000) in
  let r2 := db_helper.mk_expense (db_helper.next_rowid db + 1) a c s2 d (t2 / 1000000) in
  world.add_twice utc_offset a c d s1 s2 t1 t2 db
  = (py.Return (spec.created_outcome r1),
     py.Return (spec.created_outcome r2),
     db_helper.mk_database (db_helper.personal_expenses db ++ [r1; r2])
                           (db_helper.next_rowid db + 1)).
Proof.
  intros Hs Hnan Hcat Hfresh r1 r2. unfold world.add_twice.
  rewrite (add_expense_inserts a c d s1 (world.clock_at utc_offset t1) db Hnan Hcat).
  2: { intros row Hin (Ha & Hc & Hd & _). exfalso. apply (Hfresh row Hin). auto. }
  set (db1 := db_helper.mk_database _ _).
  rewrite (add_expense_inserts a c d s2 (world.clock_at utc_offset t2) db1 Hnan Hcat).
  2: { intros row Hin (Ha & Hc & Hd & Hdesc). exfalso.
       unfold db1 in Hin. simpl in Hin. apply in_app_or in Hin as [Hin | [<- | []]].
       - apply (Hfresh row Hin). auto.
       - simpl in Hdesc. contradiction. }
  assert (Hnext : db_helper.next_rowid db1 = db_helper.next_rowid db + 1).
  { unfold db1, db_helper.next_rowid at 1. simpl. rewrite max_rowid_snoc. simpl.
    pose proof (max_rowid_nonneg (db_helper.personal_expenses db)).
    unfold db_helper.next_rowid. lia. }
  unfold spec.new_row. rewrite Hnext. unfold db1. simpl.
  rewrite <- app_assoc. reflexivity.
Qed.

Lemma C3_different_descriptions_witness :
  world.add_twice 0 50 "FOOD" "2024-01-15" (Some ""%string) None
    example.ten_o_clock (example.ten_o_clock + world.seconds 1) world.fresh
  = (py.Return (spec.created_outcome
                  (db_helper.mk_expense 1 50 "FOOD" (Some ""%string) "2024-01-15" 1705312800)),
     py.Return (spec.created_outcome
                  (db_helper.mk_expense 2 50 "FOOD" None "2024-01-15" 1705312801)),
     db_helper.mk_database
       [db_helper.mk_expense 1 50 "FOOD" (Some ""%string) "2024-01-15" 1705312800;
        db_helper.mk_expense 2 50 "FOOD" None "2024-01-15" 1705312801] 2).
Proof.
  apply (C3_different_descriptions_are_not_duplicates 0 50 "FOOD" "2024-01-15"
           (Some ""%string) None example.ten_o_clock
           (example.ten_o_clock + world.seconds 1) world.fresh).
  - discriminate.
  - reflexivity.
  - simpl. auto.
  - intros row [].
Defined.

(* ------------------------------------------------------------------------- *)
(** ** POST /expenses                                                         *)
(* ------------------------------------------------------------------------- *)

Lemma valid_categories_check : app.VALID_CATEGORIES = db_helper.category_check.
Proof. reflexivity. Qed.

Section CreateExpense.

Variable upper : string -> string.
Variable float_of_int : Z -> option float.
Variable float_of_str : string -> option float.

#[local] Abbreviation create_expense :=
  (app.create_expense upper float_of_int float_of_str).
#[local] Abbreviation float_ := (app.float_ float_of_int float_of_str).

(** A response that carries an outcome comes from a call of [add_expense]
    on a validated amount, an upper-cased category of the list and a
    non-empty date. *)
Lemma create_expense_result (body : app.json_body) (clk : db_helper.clock)
    (db db' : db_helper.database) (o : db_helper.outcome) (code : Z) :
  create_expense body clk db = ((app.expense_result o, code), db') ->
  exists d a c0 dt,
    body = app.data d /\
    float_ (app.amount d) = py.Return a /\
    (a <=? 0)%float = false /\
    app.category d = py.Str_ c0 /\
    py.str_in (upper c0) app.VALID_CATEGORIES = true /\
    app.date d = Some dt /\
    db_helper.add_expense a (upper c0) dt (app.get_description (app.description d)) clk db
    = (py.Return o, db') /\
    code = (if (db_helper.status o =? "duplicate")%string then 200 else 201).
Proof.
  unfold app.create_expense. destruct body as [|d|]; [discriminate| |discriminate].
  destruct (app.is_none (app.amount d)); [discriminate|].
  destruct (py.truthy (app.category d)); cbn [negb]; [|discriminate].
  destruct (app.date d) as [dt|] eqn:Hdate; [|discriminate].
  destruct (py.truthy_str (Some dt)); cbn [negb]; [|discriminate].
  destruct (float_ (app.amount d)) as [a|e] eqn:Hfloat; [|destruct e; cbv beta iota; discriminate].
  destruct (a <=? 0)%float eqn:Hpos; [discriminate|].
  destruct (app.category d) as [ | | | |c0| ] eqn:Hc0; try discriminate.
  destruct (py.str_in (upper c0) app.VALID_CATEGORIES) eqn:Hcat; cbn [negb]; [|discriminate].
  destruct (db_helper.add_expense a (upper c0) dt _ clk db) as [[r|e] db1] eqn:Hadd;
    [|discriminate].
  intros H. exists d, a, c0, dt.
  destruct (db_helper.status r =? "duplicate")%string eqn:Hst;
    injection H as <- <- <-; rewrite ?Hst; repeat split; auto.
Qed.

(** A request changes the store only by the row [add_expense] inserts. *)
Lemma create_expense_store (body : app.json_body) (clk : db_helper.clock)
    (db : db_helper.database) :
  snd (create_expense body clk db) = db \/
  exists d a c0 dt,
    body = app.data d /\
    float_ (app.amount d) = py.Return a /\
    (a <=? 0)%float = false /\ is_nan a = false /\
    app.category d = py.Str_ c0 /\
    In (upper c0) app.VALID_CATEGORIES /\
    app.date d = Some dt /\
    create_expense body clk db
    = ((app.expense_result
          (spec.created_outcome
             (spec.new_row a (upper c0) dt (app.get_description (app.description d)) clk db)),
        201),
       db_helper.mk_database
         (db_helper.personal_expenses db
            ++ [spec.new_row a (upper c0) dt (app.get_description (app.description d)) clk db])
         (db_helper.next_rowid db)).
Proof.
  unfold app.create_expense. destruct body as [|d|]; [now left| |now left].
  destruct (app.is_none (app.amount d)); [now left|].
  destruct (py.truthy (app.category d)); cbn [negb]; [|now left].
  destruct (app.date d) as [dt|] eqn:Hdate; [|now left].
  destruct (py.truthy_str (Some dt)); cbn [negb]; [|now left].
  destruct (float_ (app.amount d)) as [a|e] eqn:Hfloat; [|destruct e; cbv beta iota; now left].
  destruct (a <=? 0)%float eqn:Hpos; [now left|].
  destruct (app.category d) as [ | | | |c0| ] eqn:Hc0; try now left.
  destruct (py.str_in (upper c0) app.VALID_CATEGORIES) eqn:Hcat; cbn [negb]; [|now left].
  destruct (add_expense_cases a (upper c0) dt (app.get_description (app.description d))
              clk db) as [(e & _ & E) | [(_ & Hnan & _ & E) | (_ & E)]]; rewrite E; cbv beta iota;
    try now left.
  right. exists d, a, c0, dt. repeat split; auto.
  now apply str_in_In.
Qed.

End CreateExpense.

(** The record an outcome carries has the content that was submitted. *)
Lemma outcome_content (a : float) (c d : string) (s : option string)
    (clk : db_helper.clock) (db db' : db_helper.database) (o : db_helper.outcome) :
  db_helper.add_expense a c d s clk db = (py.Return o, db') ->
  spec.same_content a c d s (db_helper.expense_ o).
Proof.
  intros H.
  destruct (add_expense_cases a c d s clk db)
    as [(e & He & E) | [(_ & Hnan & _ & E) | (_ & E)]];
    rewrite E in H; try discriminate; injection H as <- <-; simpl.
  - apply check_duplicate_Some in He as [_ Hw].
    now apply duplicate_where_holds in Hw as (_ & Hc & _).
  - repeat split. simpl. now apply float_eqb_refl.
Qed.

(** [float] raises nothing but ValueError, TypeError and OverflowError. *)
Lemma float_raises (float_of_int : Z -> option float)
    (float_of_str : string -> option float) (v : py.value) (e : py.exn) :
  app.float_ float_of_int float_of_str v = py.Raise e ->
  e = py.ValueError \/ e = py.TypeError \/ e = py.OverflowError.
Proof.
  destruct v as [ |b|z|f|s|n]; simpl;
    try destruct (float_of_int z); try destruct (float_of_str s);
    intros H; try discriminate; injection H as <-; auto.
Qed.

(** The handler has answered 400 and left the store alone. *)
Ltac answered_400 := split; [eexists|]; reflexivity.

Section CreateExpenseProperties.

Variable upper : string -> string.
Variable float_of_int : Z -> option float.
Variable float_of_str : string -> option float.

#[local] Abbreviation create_expense' :=
  (app.create_expense upper float_of_int float_of_str).

(** A request whose amount is missing, not a number or at most 0 is answered
    400 and leaves the store as it was. *)
Theorem invalid_amount_is_rejected (body : app.json_body) (clk : db_helper.clock)
    (db : db_helper.database) :
  request.amount_invalid float_of_int float_of_str body ->
  request.client_error (fst (create_expense' body clk db)) /\
  snd (create_expense' body clk db) = db.
Proof.
  unfold request.amount_invalid, request.client_error, app.create_expense.
  destruct body as [|d|]; [intros _; answered_400| |contradiction].
  intros H.
  destruct (app.is_none (app.amount d)) eqn:Hnone;
    [answered_400|].
  destruct (py.truthy (app.category d)); cbn [negb];
    [|answered_400].
  destruct (app.date d) as [dt|]; [|answered_400].
  destruct (py.truthy_str (Some dt)); cbn [negb];
    [|answered_400].
  destruct H as [H | [H | [H | (f & H & Hf)]]].
  - rewrite H in Hnone. discriminate.
  - rewrite H. answered_400.
  - rewrite H. answered_400.
  - rewrite H, Hf. answered_400.
Qed.

(** Every amount the create surface stores is greater than 0. *)
Theorem stored_amounts_stay_positive (body : app.json_body) (clk : db_helper.clock)
    (db : db_helper.database) :
  Forall (fun row => (0 <? db_helper.amount row)%float = true)
         (db_helper.personal_expenses db) ->
  Forall (fun row => (0 <? db_helper.amount row)%float = true)
         (db_helper.personal_expenses (snd (create_expense' body clk db))).
Proof.
  intros H.
  destruct (create_expense_store upper float_of_int float_of_str body clk db)
    as [-> | (d & a & c0 & dt & _ & _ & Hpos & Hnan & _ & _ & _ & ->)];
    [assumption|].
  simpl. apply Forall_app. split; [assumption|].
  constructor; [|constructor]. simpl. now apply float_not_leb_pos.
Qed.

(** A request whose category is missing, or a text whose upper-case form is
    not one of the eleven labels, is answered 400 and leaves the store as it
    was, unless the conversion of its amount overflows. *)
Theorem invalid_category_is_rejected (d : app.json_object) (clk : db_helper.clock)
    (db : db_helper.database) :
  request.category_invalid upper d ->
  app.float_ float_of_int float_of_str (app.amount d) <> py.Raise py.OverflowError ->
  request.client_error (fst (create_expense' (app.data d) clk db)) /\
  snd (create_expense' (app.data d) clk db) = db.
Proof.
  unfold request.category_invalid, request.client_error, app.create_expense.
  intros H Hover.
  destruct (app.is_none (app.amount d)); [answered_400|].
  destruct H as [H | (c0 & Hc & Hin)].
  { rewrite H. answered_400. }
  destruct (py.truthy (app.category d)); cbn [negb];
    [|answered_400].
  destruct (app.date d) as [dt|]; [|answered_400].
  destruct (py.truthy_str (Some dt)); cbn [negb];
    [|answered_400].
  destruct (app.float_ float_of_int float_of_str (app.amount d)) as [a|e] eqn:Hf.
  - destruct (a <=? 0)%float; [answered_400|].
    rewrite Hc, Hin. answered_400.
  - destruct (float_raises _ _ _ _ Hf) as [-> | [-> | ->]];
      try (answered_400).
    now contradiction Hover.
Qed.

(** Every category the create surface stores is the upper-case form of the
    category of the request and one of the eleven labels. *)
Theorem stored_categories_stay_valid (body : app.json_body) (clk : db_helper.clock)
    (db : db_helper.database) :
  Forall (fun row => In (db_helper.category row) app.VALID_CATEGORIES)
         (db_helper.personal_expenses db) ->
  Forall (fun row => In (db_helper.category row) app.VALID_CATEGORIES)
         (db_helper.personal_expenses (snd (create_expense' body clk db))).
Proof.
  intros H.
  destruct (create_expense_store upper float_of_int float_of_str body clk db)
    as [-> | (d & a & c0 & dt & _ & _ & _ & _ & _ & Hin & _ & ->)];
    [assumption|].
  simpl. apply Forall_app. split; [assumption|].
  constructor; [exact Hin | constructor].
Qed.

(** The record in the response of an accepted request has the upper-case
    form of the submitted category. *)
Theorem accepted_category_is_upper_case (body : app.json_body) (clk : db_helper.clock)
    (db db' : db_helper.database) (o : db_helper.outcome) (code : Z) :
  create_expense' body clk db = ((app.expense_result o, code), db') ->
  exists d c0,
    body = app.data d /\ app.category d = py.Str_ c0 /\
    db_helper.category (db_helper.expense_ o) = upper c0 /\
    In (upper c0) app.VALID_CATEGORIES.
Proof.
  intros H.
  apply create_expense_result in H
    as (d & a & c0 & dt & -> & _ & _ & Hc & Hin & _ & Hadd & _).
  exists d, c0. repeat split; auto.
  - now apply outcome_content in Hadd as (_ & Hcat & _).
  - now apply str_in_In.
Qed.

End CreateExpenseProperties.

Lemma check_duplicate_nan (a : float) (c d : string) (s : option string)
    (m now : Z) (db : db_helper.database) :
  is_nan a = true -> db_helper.check_duplicate a c d s m now db = None.
Proof.
  intros Hnan. apply check_duplicate_None. intros row _.
  destruct (sql.holds _) eqn:E; [|reflexivity].
  apply duplicate_where_holds in E as (H & _). congruence.
Qed.

(** C4 (the code departs from the design document): a request whose amount
    converts to NaN (the text "nan", on which [float] returns NaN, or the
    JSON literal [NaN], which Python's parser accepts) has an amount that is
    not greater than 0, yet [amount <= 0] is false for it and validation
    lets it through. The store refuses the row, NaN being bound as NULL to a
    NOT NULL column, and the handler answers 500, not 400. Nothing is
    stored. *)
Theorem C4_nan_amount_is_a_server_error
    (float_of_int : Z -> option float) (float_of_str : string -> option float)
    (amount_ : py.value) (a : float)
    (clk : db_helper.clock) (db : db_helper.database) :
  app.float_ float_of_int float_of_str amount_ = py.Return a ->
  is_nan a = true ->
  app.create_expense world.upper_ascii float_of_int float_of_str
    (request.post amount_ (py.Str_ "food") app.absent) clk db
  = ((app.exception py.IntegrityError, 500), db).
Proof.
  intros Hfloat Hnan.
  assert (E : db_helper.add_expense a "FOOD" "2024-01-15" (Some ""%string) clk db
              = (py.Raise py.IntegrityError, db)).
  { apply add_expense_refused; [|now left]. now apply check_duplicate_nan. }
  assert (Hnone : app.is_none amount_ = false).
  { destruct amount_; try reflexivity. discriminate. }
  unfold app.create_expense, request.post.
  cbn [app.amount app.category app.date app.description app.get_description].
  rewrite Hnone, Hfloat, (float_nan_not_leb a Hnan).
  cbn -[db_helper.add_expense].
  rewrite E. reflexivity.
Qed.

Lemma C4_nan_amount_witness :
  app.create_expense world.upper_ascii (fun _ => None)
    (fun s => if (s =? "nan")%string then Some nan else None)
    (request.post (py.Str_ "nan") (py.Str_ "food") app.absent)
    (world.clock_at 0 example.ten_o_clock) world.fresh
  = ((app.exception py.IntegrityError, 500), world.fresh).
Proof.
  apply (C4_nan_amount_is_a_server_error (fun _ => None)
           (fun s => if (s =? "nan")%string then Some nan else None)
           (py.Str_ "nan") nan).
  - reflexivity.
  - reflexivity.
Defined.

(** C5 (the code departs from the design document): a request whose
    category is the number 5 is outside the eleven labels, but
    [category.upper()] raises AttributeError on it and the handler answers
    500, not 400. Nothing is stored. *)
Theorem C5_non_text_category_is_a_server_error
    (upper : string -> string)
    (float_of_int : Z -> option float) (float_of_str : string -> option float)
    (clk : db_helper.clock) (db : db_helper.database) :
  app.create_expense upper float_of_int float_of_str
    (request.post (py.Float_ 12.5) (py.Int_ 5) app.absent) clk db
  = ((app.exception py.AttributeError, 500), db).
Proof.
  unfold app.create_expense, request.post.
  cbn -[PrimFloat.leb].
  change (12.5 <=? 0)%float with false. reflexivity.
Qed.

Lemma invalid_amount_is_rejected_witness :
  request.client_error
    (fst (app.create_expense world.upper_ascii (fun _ => None) (fun _ => None)
            (request.post (py.Float_ (-5)) (py.Str_ "food") app.absent)
            (world.clock_at 0 example.ten_o_clock) world.fresh)) /\
  snd (app.create_expense world.upper_ascii (fun _ => None) (fun _ => None)
         (request.post (py.Float_ (-5)) (py.Str_ "food") app.absent)
         (world.clock_at 0 example.ten_o_clock) world.fresh) = world.fresh.
Proof.
  apply (invalid_amount_is_rejected world.upper_ascii (fun _ => None) (fun _ => None)).
  simpl. right. right. right. exists (-5)%float. split; reflexivity.
Defined.

Lemma stored_amounts_stay_positive_witness :
  Forall (fun row => (0 <? db_helper.amount row)%float = true)
    (db_helper.personal_expenses
       (snd (app.create_expense world.upper_ascii (fun _ => None) (fun _ => None)
               (request.post (py.Float_ 12.5) (py.Str_ "food") app.absent)
               (world.clock_at 0 example.ten_o_clock) world.fresh))).
Proof.
  apply (stored_amounts_stay_positive world.upper_ascii (fun _ => None) (fun _ => None)).
  simpl. constructor.
Defined.

Lemma invalid_category_is_rejected_witness :
  request.client_error
    (fst (app.create_expense world.upper_ascii (fun _ => None) (fun _ => None)
            (request.post (py.Float_ 12.5) (py.Str_ "gifts") app.absent)
            (world.clock_at 0 example.ten_o_clock) world.fresh)) /\
  snd (app.create_expense world.upper_ascii (fun _ => None) (fun _ => None)
         (request.post (py.Float_ 12.5) (py.Str_ "gifts") app.absent)
         (world.clock_at 0 example.ten_o_clock) world.fresh) = world.fresh.
Proof.
  apply (invalid_category_is_rejected world.upper_ascii (fun _ => None) (fun _ => None)
           (app.mk_json_object (py.Float_ 12.5) (py.Str_ "gifts")
              (Some "2024-01-15"%string) app.absent)).
  - right. exists "gifts"%string. split; reflexivity.
  - discriminate.
Defined.

Lemma stored_categories_stay_valid_witness :
  Forall (fun row => In (db_helper.category row) app.VALID_CATEGORIES)
    (db_helper.personal_expenses
       (snd (app.create_expense world.upper_ascii (fun _ => None) (fun _ => None)
               (request.post (py.Float_ 12.5) (py.Str_ "food") app.absent)
               (world.clock_at 0 example.ten_o_clock) world.fresh))).
Proof.
  apply (stored_categories_stay_valid world.upper_ascii (fun _ => None) (fun _ => None)).
  simpl. constructor.
Defined.

Lemma accepted_category_is_upper_case_witness :
  exists d c0,
    request.post (py.Float_ 12.5) (py.Str_ "food") app.absent = app.data d /\
    app.category d = py.Str_ c0 /\
    db_helper.category
      (db_helper.mk_expense 1 12.5 "FOOD" (Some ""%string) "2024-01-15" 1705312800)
    = world.upper_ascii c0 /\
    In (world.upper_ascii c0) app.VALID_CATEGORIES.
Proof.
  apply (accepted_category_is_upper_case world.upper_ascii (fun _ => None) (fun _ => None)
           (request.post (py.Float_ 12.5) (py.Str_ "food") app.absent)
           (world.clock_at 0 example.ten_o_clock) world.fresh
           (db_helper.mk_database
              [db_helper.mk_expense 1 12.5 "FOOD" (Some ""%string) "2024-01-15" 1705312800] 1)
           (spec.created_outcome
              (db_helper.mk_expense 1 12.5 "FOOD" (Some ""%string) "2024-01-15" 1705312800))
           201).
  vm_compute. reflexivity.
Defined.

(* ------------------------------------------------------------------------- *)
(** ** The description member of a request                                    *)
(* ------------------------------------------------------------------------- *)

(** C10 (does not hold as stated): a request whose [description] member is
    JSON null is stored with a NULL description: [data.get('description', '')]
    only puts [''] in place of a member that is left out. *)
Lemma C10_null_description_is_stored_as_null :
  let row := db_helper.mk_expense 1 12.5 "FOOD" None "2024-01-15" 1705312800 in
  app.create_expense world.upper_ascii (fun _ => None) (fun _ => None)
    (request.post (py.Float_ 12.5) (py.Str_ "food") app.null)
    (world.clock_at 0 example.ten_o_clock) world.fresh
  = ((app.expense_result (spec.created_outcome row), 201),
     db_helper.mk_database [row] 1) /\
  db_helper.description row = None.
Proof.
  vm_compute. split; reflexivity.
Qed.

Section Description.

Variable upper : string -> string.
Variable float_of_int : Z -> option float.
Variable float_of_str : string -> option float.

(** C10 (amended): unless the [description] member of the request is JSON
    null, the record in the response of an accepted request, created or
    duplicate, has a description that is not NULL: the text of the member,
    or [''] when the member is left out. A request that leaves the member
    out is handled, response and store, exactly as the same request with
    the member [""]. *)
Theorem C10_description_defaults_to_empty (d : app.json_object)
    (clk : db_helper.clock) (db : db_helper.database) :
  app.description d <> app.null ->
  app.create_expense upper float_of_int float_of_str (app.data d) clk db
  = app.create_expense upper float_of_int float_of_str
      (app.data (request.with_description d
                   (app.text (request.text_of (app.description d))))) clk db /\
  forall o code db',
    app.create_expense upper float_of_int float_of_str (app.data d) clk db
    = ((app.expense_result o, code), db') ->
    db_helper.description (db_helper.expense_ o)
    = Some (request.text_of (app.description d)).
Proof.
  intros Hnull.
  assert (Hget : app.get_description (app.description d)
                 = Some (request.text_of (app.description d))).
  { destruct (app.description d); [reflexivity | contradiction | reflexivity]. }
  split.
  - unfold app.create_expense, request.with_description.
    cbn [app.amount app.category app.date app.description].
    rewrite Hget. reflexivity.
  - intros o code db' H.
    apply create_expense_result in H
      as (d' & a & c0 & dt & Hd & _ & _ & _ & _ & _ & Hadd & _).
    injection Hd as <-.
    apply outcome_description in Hadd. now rewrite Hadd.
Qed.

End Description.

Lemma C10_description_defaults_to_empty_witness :
  let d := app.mk_json_object (py.Float_ 12.5) (py.Str_ "food")
             (Some "2024-01-15"%string) app.absent in
  app.create_expense world.upper_ascii (fun _ => None) (fun _ => None) (app.data d)
    (world.clock_at 0 example.ten_o_clock) world.fresh
  = app.create_expense world.upper_ascii (fun _ => None) (fun _ => None)
      (app.data (request.with_description d (app.text "")))
      (world.clock_at 0 example.ten_o_clock) world.fresh /\
  forall o code db',
    app.create_expense world.upper_ascii (fun _ => None) (fun _ => None) (app.data d)
      (world.clock_at 0 example.ten_o_clock) world.fresh
    = ((app.expense_result o, code), db') ->
    db_helper.description (db_helper.expense_ o) = Some ""%string.
Proof.
  apply (C10_description_defaults_to_empty world.upper_ascii (fun _ => None) (fun _ => None)
           (app.mk_json_object (py.Float_ 12.5) (py.Str_ "food")
              (Some "2024-01-15"%string) app.absent)
           (world.clock_at 0 example.ten_o_clock) world.fresh).
  discriminate.
Defined.

(* ------------------------------------------------------------------------- *)
(** ** get_expenses                                                           *)
(* ------------------------------------------------------------------------- *)

Lemma string_compare_refl (x : string) : String.compare x x = Eq.
Proof.
  now apply String_as_OT.cmp_eq.
Qed.

Lemma string_compare_trans (x y z : string) :
  String.compare x y = Lt -> String.compare y z = Lt -> String.compare x z = Lt.
Proof.
  intros H1 H2.
  apply String_as_OT.cmp_lt in H1. apply String_as_OT.cmp_lt in H2.
  apply String_as_OT.cmp_lt. exact (String_as_OT.lt_trans _ _ _ H1 H2).
Qed.

Lemma date_asc_oldest_first (a b : db_helper.expense) :
  db_helper.date_asc a b = true <-> spec.oldest_first a b.
Proof.
  unfold db_helper.date_asc, spec.oldest_first.
  destruct (String.compare (db_helper.expense_date a) (db_helper.expense_date b)) eqn:E.
  - apply String.compare_eq_iff in E. rewrite Z.leb_le.
    split; [auto | intros [H | [_ H]]; [discriminate | exact H]].
  - split; auto.
  - split; [discriminate|].
    intros [H | [H _]]; [discriminate|].
    rewrite H, string_compare_refl in E. discriminate.
Qed.

Lemma date_desc_newest_first (a b : db_helper.expense) :
  db_helper.date_desc a b = true <-> spec.newest_first a b.
Proof.
  unfold spec.newest_first. rewrite <- date_asc_oldest_first.
  unfold db_helper.date_desc, db_helper.date_asc.
  rewrite (String.compare_antisym (db_helper.expense_date b) (db_helper.expense_date a)).
  destruct (String.compare (db_helper.expense_date a) (db_helper.expense_date b));
    simpl; reflexivity.
Qed.

Lemma date_asc_total (a b : db_helper.expense) :
  db_helper.date_asc a b = false -> db_helper.date_asc b a = true.
Proof.
  unfold db_helper.date_asc.
  rewrite (String.compare_antisym (db_helper.expense_date b) (db_helper.expense_date a)).
  destruct (String.compare (db_helper.expense_date a) (db_helper.expense_date b));
    simpl; intros H; try discriminate; try reflexivity.
  apply Z.leb_gt in H. apply Z.leb_le. lia.
Qed.

Lemma date_asc_trans (a b c : db_helper.expense) :
  db_helper.date_asc a b = true -> db_helper.date_asc b c = true ->
  db_helper.date_asc a c = true.
Proof.
  rewrite !date_asc_oldest_first. unfold spec.oldest_first.
  intros [H1 | [E1 H1]] [H2 | [E2 H2]].
  - left. eapply string_compare_trans; eassumption.
  - left. now rewrite <- E2.
  - left. now rewrite E1.
  - right. split; [congruence | lia].
Qed.

Lemma date_desc_flip (a b : db_helper.expense) :
  db_helper.date_desc a b = db_helper.date_asc b a.
Proof.
  destruct (db_helper.date_desc a b) eqn:E1, (db_helper.date_asc b a) eqn:E2;
    try reflexivity.
  - apply date_desc_newest_first, date_asc_oldest_first in E1. congruence.
  - apply date_asc_oldest_first, date_desc_newest_first in E2. congruence.
Qed.

Lemma category_where_true (c : option string) (row : db_helper.expense) :
  db_helper.category_where c row = true <->
  c = None \/ c = Some ""%string \/ c = Some (db_helper.category row).
Proof.
  unfold db_helper.category_where, py.truthy_str.
  destruct c as [s|]; [|intuition].
  destruct (String.eqb_spec s "") as [-> | Hs]; simpl; [intuition|].
  destruct (String.eqb_spec (db_helper.category row) s) as [-> | Hc].
  - intuition.
  - split; [discriminate|].
    intros [H | [H | H]]; try discriminate; injection H; congruence.
Qed.

(** Apart from the empty text, the code's filter is the exact match. *)
Lemma category_where_passes (c : option string) (row : db_helper.expense) :
  c <> Some ""%string ->
  db_helper.category_where c row = spec.passes c row.
Proof.
  intros Hc. unfold db_helper.category_where, spec.passes, py.truthy_str.
  destruct c as [s|]; [|reflexivity].
  destruct (String.eqb_spec s "") as [-> | Hs]; [congruence|]. simpl.
  now destruct (db_helper.category row =? s)%string.
Qed.

Lemma strongly_sorted_impl {A : Type} (R R' : A -> A -> Prop) (l : list A) :
  (forall a b, R a b -> R' a b) -> StronglySorted R l -> StronglySorted R' l.
Proof.
  intros H. induction 1 as [|x l Hl IH Hx]; constructor; [assumption|].
  eapply Forall_impl; [|exact Hx]. auto.
Qed.

(** C6 (does not hold as stated): an empty text given as category is no
    filter for [get_expenses]. With 0.10 on FOOD, 0.10 on RENT and 1.10 on
    FOOD stored, the listing for [''] has all three records, none of which
    has that category. *)
Lemma C6_empty_category_lists_every_record :
  map db_helper.id (db_helper.get_expenses (Some ""%string) false example.small_ledger)
  = [1; 2; 3] /\
  filter (spec.passes (Some ""%string))
    (db_helper.personal_expenses example.small_ledger) = [].
Proof.
  vm_compute. split; reflexivity.
Qed.

(** C6 (amended): for every stored collection whose dates are calendar dates
    written YYYY-MM-DD, every category filter that is absent or not the
    empty text, and either direction, [get_expenses] returns the rows of
    exactly that category (all rows without a filter), each as often as it
    is stored, ordered by [expense_date] ascending and then [created_at]
    ascending, or by both keys descending when newest-first is asked for. In
    particular, in the ascending listing, of two rows of the same
    [expense_date] the one with the earlier [created_at] comes first. *)
Theorem C6_listing_is_filtered_and_ordered (category_ : option string)
    (sort_by_date_desc : bool) (db : db_helper.database) :
  category_ <> Some ""%string ->
  Forall (fun row => spec.calendar_date (db_helper.expense_date row) = true)
         (db_helper.personal_expenses db) ->
  let listing := db_helper.get_expenses category_ sort_by_date_desc db in
  Permutation listing
    (filter (spec.passes category_) (db_helper.personal_expenses db)) /\
  (forall row, In row listing <->
               In row (db_helper.personal_expenses db) /\
               spec.passes category_ row = true) /\
  StronglySorted
    (if sort_by_date_desc then spec.newest_first else spec.oldest_first) listing /\
  (sort_by_date_desc = false ->
   forall r1 r2, In r1 listing -> In r2 listing ->
     db_helper.expense_date r1 = db_helper.expense_date r2 ->
     db_helper.created_at r1 < db_helper.created_at r2 ->
     exists l1 l2 l3, listing = l1 ++ r1 :: l2 ++ r2 :: l3).
Proof.
  intros Hfilter Hdates listing.
  assert (Hsorted : StronglySorted
            (if sort_by_date_desc then spec.newest_first else spec.oldest_first) listing).
  { unfold listing, db_helper.get_expenses. destruct sort_by_date_desc.
    - apply strongly_sorted_impl with (R := sql.precedes db_helper.date_desc).
      + intros a b. apply date_desc_newest_first.
      + apply order_by_sorted.
        * intros a b. rewrite !date_desc_flip. apply date_asc_total.
        * intros a b c. rewrite !date_desc_flip. intros H1 H2.
          eapply date_asc_trans; eassumption.
    - apply strongly_sorted_impl with (R := sql.precedes db_helper.date_asc).
      + intros a b. apply date_asc_oldest_first.
      + apply order_by_sorted; [apply date_asc_total | apply date_asc_trans]. }
  assert (Hsame : filter (db_helper.category_where category_)
                    (db_helper.personal_expenses db)
                  = filter (spec.passes category_) (db_helper.personal_expenses db)).
  { apply filter_ext. intros row. now apply category_where_passes. }
  split.
  { unfold listing, db_helper.get_expenses. rewrite <- Hsame. apply order_by_perm. }
  split.
  { intros row. unfold listing, db_helper.get_expenses.
    rewrite order_by_In, filter_In, category_where_passes by assumption.
    reflexivity. }
  split; [exact Hsorted|].
  intros -> r1 r2 H1 H2 Hdate Hcreated.
  apply (sorted_before spec.oldest_first); auto.
  - intros [H | [_ H]]; [|lia].
    rewrite Hdate, string_compare_refl in H. discriminate.
  - intros ->. lia.
Qed.

Lemma C6_listing_witness :
  let listing := db_helper.get_expenses (Some "FOOD"%string) false
                   example.small_ledger in
  Permutation listing
    (filter (spec.passes (Some "FOOD"%string))
       (db_helper.personal_expenses example.small_ledger)) /\
  (forall row, In row listing <->
               In row (db_helper.personal_expenses example.small_ledger) /\
               spec.passes (Some "FOOD"%string) row = true) /\
  StronglySorted spec.oldest_first listing /\
  (false = false ->
   forall r1 r2, In r1 listing -> In r2 listing ->
     db_helper.expense_date r1 = db_helper.expense_date r2 ->
     db_helper.created_at r1 < db_helper.created_at r2 ->
     exists l1 l2 l3, listing = l1 ++ r1 :: l2 ++ r2 :: l3).
Proof.
  apply (C6_listing_is_filtered_and_ordered (Some "FOOD"%string) false
           example.small_ledger).
  - discriminate.
  - apply Forall_forall. intros row Hin.
    vm_compute in Hin. destruct Hin as [<- | [<- | [<- | []]]]; reflexivity.
Defined.

(** The example of the design document: rows dated 2024-01-01, 2024-01-01
    and 2024-01-03, stored in the order 3, 1, 2 of their creation. *)
Example listing_of_three_dates :
  let row (i : Z) (d : string) (created : Z) :=
    db_helper.mk_expense i 10 "FOOD" (Some ""%string) d created in
  let a := row 1 "2024-01-03"%string 100 in
  let b := row 2 "2024-01-01"%string 200 in
  let c := row 3 "2024-01-01"%string 300 in
  db_helper.get_expenses None false (db_helper.mk_database [a; b; c] 3) = [b; c; a] /\
  db_helper.get_expenses None true (db_helper.mk_database [a; b; c] 3) = [a; c; b].
Proof.
  vm_compute. split; reflexivity.
Qed.

(* ------------------------------------------------------------------------- *)
(** ** delete_expense                                                         *)
(* ------------------------------------------------------------------------- *)

Lemma select_by_id_Some (i : Z) (db : db_helper.database) (row : db_helper.expense) :
  db_helper.select_by_id i db = Some row ->
  In row (db_helper.personal_expenses db) /\ db_helper.id row = i.
Proof.
  unfold db_helper.select_by_id. intros H.
  apply find_some in H as [Hin Hid]. split; [assumption | now apply Z.eqb_eq].
Qed.

Lemma select_by_id_None (i : Z) (db : db_helper.database) :
  db_helper.select_by_id i db = None <->
  forall row, In row (db_helper.personal_expenses db) -> db_helper.id row <> i.
Proof.
  unfold db_helper.select_by_id. split.
  - intros H row Hin. apply (find_none _ _ H) in Hin. now apply Z.eqb_neq.
  - intros H. destruct (find _ _) as [row|] eqn:E; [|reflexivity].
    apply find_some in E as [Hin Hid]. apply Z.eqb_eq in Hid.
    now apply H in Hin.
Qed.

Lemma delete_expense_rows (i : Z) (db : db_helper.database) (row : db_helper.expense) :
  In row (db_helper.personal_expenses (snd (db_helper.delete_expense i db))) <->
  In row (db_helper.personal_expenses db) /\ db_helper.id row <> i.
Proof.
  unfold db_helper.delete_expense.
  destruct (db_helper.select_by_id i db) as [found|] eqn:E; simpl.
  - rewrite filter_In, negb_true_iff, Z.eqb_neq. reflexivity.
  - rewrite select_by_id_None in E. split; [|tauto].
    intros H. split; [assumption | now apply E].
Qed.

(** For an id the store can hold: [delete_expense] answers true exactly when
    a row with the id is stored; answering false it leaves the store as it
    was; afterwards the store holds the rows it held before except those
    with the id, a second delete of the same id answers false, and no
    listing shows the id. *)
Lemma delete_expense_final (expense_id : Z) (db : db_helper.database) :
  let result := db_helper.delete_expense expense_id db in
  (fst result = true <->
   exists row, In row (db_helper.personal_expenses db) /\ db_helper.id row = expense_id) /\
  (fst result = false -> snd result = db) /\
  (forall row, In row (db_helper.personal_expenses (snd result)) <->
               In row (db_helper.personal_expenses db) /\ db_helper.id row <> expense_id) /\
  fst (db_helper.delete_expense expense_id (snd result)) = false /\
  (forall category_ sort_by_date_desc row,
     In row (db_helper.get_expenses category_ sort_by_date_desc (snd result)) ->
     db_helper.id row <> expense_id).
Proof.
  intros result.
  assert (Hrows : forall row,
             In row (db_helper.personal_expenses (snd result)) <->
             In row (db_helper.personal_expenses db) /\ db_helper.id row <> expense_id)
    by (intros row; apply delete_expense_rows).
  split; [|split; [|split; [exact Hrows | split]]].
  - unfold result, db_helper.delete_expense.
    destruct (db_helper.select_by_id expense_id db) as [found|] eqn:E; simpl.
    + apply select_by_id_Some in E. split; [eauto | reflexivity].
    + rewrite select_by_id_None in E. split; [discriminate|].
      intros (row & Hin & Hid). now apply E in Hin.
  - unfold result, db_helper.delete_expense.
    destruct (db_helper.select_by_id expense_id db); simpl; [discriminate | reflexivity].
  - unfold db_helper.delete_expense at 1.
    assert (E : db_helper.select_by_id expense_id (snd result) = None).
    { apply select_by_id_None. intros row Hin. now apply Hrows in Hin. }
    now rewrite E.
  - intros category_ sort_by_date_desc row Hin.
    unfold db_helper.get_expenses in Hin.
    apply order_by_In, filter_In in Hin as [Hin _]. now apply Hrows in Hin.
Qed.

(** C8 (the code departs from the design document): an id is any integer
    the caller passes, and the route takes any run of digits. For an id
    outside the signed 64-bit range, which no row can have, [delete_expense]
    does not return false: binding the id raises OverflowError, and the
    route answers 500 instead of 404. Nothing is changed. For every id
    inside the range the operation is as described: it returns true and
    removes the record exactly when a record with that id is stored, returns
    false and changes nothing when there is none, a second delete of the
    same id returns false, and no listing shows the id afterwards. *)
Theorem C8_delete_raises_for_an_id_out_of_range (expense_id : Z)
    (db : db_helper.database) :
  (sql.int64 expense_id = false ->
   db_helper.delete_expense_int expense_id db = (py.Raise py.OverflowError, db) /\
   app.delete_expense_int expense_id db
   = ((app.exception py.OverflowError, 500), db)) /\
  (sql.int64 expense_id = true ->
   exists was_deleted db',
     db_helper.delete_expense_int expense_id db = (py.Return was_deleted, db') /\
     (was_deleted = true <->
      exists row, In row (db_helper.personal_expenses db) /\
                  db_helper.id row = expense_id) /\
     (was_deleted = false -> db' = db) /\
     (forall row, In row (db_helper.personal_expenses db') <->
                  In row (db_helper.personal_expenses db) /\
                  db_helper.id row <> expense_id) /\
     db_helper.delete_expense_int expense_id db' = (py.Return false, db') /\
     (forall category_ sort_by_date_desc row,
        In row (db_helper.get_expenses category_ sort_by_date_desc db') ->
        db_helper.id row <> expense_id)).
Proof.
  split; intros Hrange.
  - unfold app.delete_expense_int, db_helper.delete_expense_int,
      db_helper.bind_integer.
    rewrite Hrange. split; reflexivity.
  - destruct (delete_expense_final expense_id db)
      as (Hfound & Hsame & Hrows & Hagain & Hlist).
    cbv zeta in Hfound, Hsame, Hrows, Hagain, Hlist.
    exists (fst (db_helper.delete_expense expense_id db)),
           (snd (db_helper.delete_expense expense_id db)).
    unfold db_helper.delete_expense_int, db_helper.bind_integer.
    rewrite Hrange.
    split; [now destruct (db_helper.delete_expense expense_id db)|].
    split; [exact Hfound|]. split; [exact Hsame|]. split; [exact Hrows|].
    split; [|exact Hlist].
    destruct (delete_expense_final expense_id
                (snd (db_helper.delete_expense expense_id db)))
      as (_ & Hsame' & _).
    cbv zeta in Hsame'. specialize (Hsame' Hagain).
    rewrite (surjective_pairing
               (db_helper.delete_expense expense_id
                  (snd (db_helper.delete_expense expense_id db)))).
    rewrite Hagain, Hsame'. reflexivity.
Qed.

(** The smallest id that is too large, on the store of three records. *)
Example delete_out_of_range :
  app.delete_expense_int (2 ^ 63) example.small_ledger
  = ((app.exception py.OverflowError, 500), example.small_ledger) /\
  app.delete_expense_int (2 ^ 63 - 1) example.small_ledger
  = ((app.error "Expense not found", 404), example.small_ledger).
Proof.
  vm_compute. split; reflexivity.
Qed.

(** Deleting the only row twice. *)
Example delete_twice :
  let db := db_helper.mk_database [example.lunch 1 1705312800] 1 in
  let first := db_helper.delete_expense 1 db in
  fst first = true /\
  db_helper.delete_expense 1 (snd first) = (false, db_helper.mk_database [] 1).
Proof.
  vm_compute. split; reflexivity.
Qed.

(* ------------------------------------------------------------------------- *)
(** ** Ids                                                                    *)
(* ------------------------------------------------------------------------- *)

(** What a call that inserts does to the store. *)
Lemma inserted_id_Some (c : world.call) (db : db_helper.database) (i : Z) :
  world.inserted_id c db = Some i ->
  i = db_helper.next_rowid db /\
  db_helper.sqlite_sequence (world.run_call c db) = i /\
  exists row, db_helper.id row = i /\
    db_helper.personal_expenses (world.run_call c db)
    = db_helper.personal_expenses db ++ [row].
Proof.
  destruct c as [a c d s clk | j]; simpl; [|discriminate].
  destruct (add_expense_cases a c d s clk db)
    as [(e & _ & E) | [(_ & _ & _ & E) | (_ & E)]]; rewrite E; cbn -[db_helper.next_rowid];
    try discriminate.
  intros H. injection H as <-. repeat split.
  exists (spec.new_row a c d s clk db). split; reflexivity.
Qed.

(** What a call that does not insert does to it. *)
Lemma inserted_id_None (c : world.call) (db : db_helper.database) :
  world.inserted_id c db = None ->
  db_helper.sqlite_sequence (world.run_call c db) = db_helper.sqlite_sequence db /\
  forall row, In row (db_helper.personal_expenses (world.run_call c db)) ->
              In row (db_helper.personal_expenses db).
Proof.
  destruct c as [a c d s clk | j]; simpl.
  - destruct (add_expense_cases a c d s clk db)
      as [(e & _ & E) | [(_ & _ & _ & E) | (_ & E)]]; rewrite E; cbn -[db_helper.next_rowid];
      try discriminate; auto.
  - intros _. split.
    + unfold db_helper.delete_expense.
      now destruct (db_helper.select_by_id j db).
    + intros row H. now apply delete_expense_rows in H.
Qed.

Lemma run_call_sequence (c : world.call) (db : db_helper.database) :
  db_helper.sqlite_sequence db <= db_helper.sqlite_sequence (world.run_call c db).
Proof.
  destruct (world.inserted_id c db) as [i|] eqn:E.
  - apply inserted_id_Some in E as (-> & -> & _).
    pose proof (next_rowid_above_sequence db). lia.
  - apply inserted_id_None in E as [-> _]. lia.
Qed.

Lemma run_sequence (calls : list world.call) (db : db_helper.database) :
  db_helper.sqlite_sequence db <= db_helper.sqlite_sequence (world.run calls db).
Proof.
  revert db. induction calls as [|c calls IH]; simpl; intros db; [lia|].
  pose proof (run_call_sequence c db). specialize (IH (world.run_call c db)). lia.
Qed.

(** The ids handed out by a sequence of calls grow, starting above the
    counter. *)
Lemma inserted_ids_increase (calls : list world.call) (db : db_helper.database) :
  Forall (fun i => db_helper.sqlite_sequence db < i) (world.inserted_ids calls db) /\
  StronglySorted Z.lt (world.inserted_ids calls db).
Proof.
  revert db. induction calls as [|c calls IH]; simpl; intros db.
  - split; constructor.
  - destruct (IH (world.run_call c db)) as [Habove Hsorted].
    destruct (world.inserted_id c db) as [i|] eqn:E.
    + apply inserted_id_Some in E as (Hi & Hseq & _).
      rewrite Hseq in Habove.
      pose proof (next_rowid_above_sequence db).
      split.
      * constructor; [lia|]. eapply Forall_impl; [|exact Habove]. simpl. lia.
      * now constructor.
    + apply inserted_id_None in E as [Hseq _]. rewrite Hseq in Habove. now split.
Qed.

(** None of them exceeds the counter they leave behind. *)
Lemma inserted_ids_bounded (calls : list world.call) (db : db_helper.database) :
  Forall (fun i => i <= db_helper.sqlite_sequence (world.run calls db))
         (world.inserted_ids calls db).
Proof.
  revert db. induction calls as [|c calls IH]; simpl; intros db; [constructor|].
  destruct (world.inserted_id c db) as [i|] eqn:E; [|apply IH].
  constructor; [|apply IH].
  apply inserted_id_Some in E as (_ & <- & _). apply run_sequence.
Qed.

(** A stored row was there from the start or bears one of the ids handed
    out since. *)
Lemma stored_ids_inserted (calls : list world.call) (db : db_helper.database)
    (row : db_helper.expense) :
  In row (db_helper.personal_expenses (world.run calls db)) ->
  In row (db_helper.personal_expenses db) \/
  In (db_helper.id row) (world.inserted_ids calls db).
Proof.
  revert db. induction calls as [|c calls IH]; simpl; intros db H; [now left|].
  destruct (IH _ H) as [Hin | Hin].
  - destruct (world.inserted_id c db) as [i|] eqn:E.
    + apply inserted_id_Some in E as (_ & _ & new & Hid & Hrows).
      rewrite Hrows in Hin. apply in_app_or in Hin as [Hin | [<- | []]].
      * now left.
      * right. left. now symmetry.
    + apply inserted_id_None in E as [_ Hsub]. left. now apply Hsub.
  - right. destruct (world.inserted_id c db); [now right | assumption].
Qed.

Lemma sorted_ids_injective (rows : list db_helper.expense) (r r' : db_helper.expense) :
  StronglySorted (fun a b => db_helper.id a < db_helper.id b) rows ->
  In r rows -> In r' rows -> db_helper.id r = db_helper.id r' -> r = r'.
Proof.
  induction 1 as [|x rows Hrows IH Hx]; [contradiction|].
  rewrite Forall_forall in Hx.
  intros [-> | Hr] [-> | Hr'] Hid; auto.
  - apply Hx in Hr'. lia.
  - apply Hx in Hr. lia.
Qed.

Lemma sorted_ids_nodup (rows : list db_helper.expense) :
  StronglySorted (fun a b => db_helper.id a < db_helper.id b) rows ->
  NoDup (map db_helper.id rows).
Proof.
  induction 1 as [|x rows Hrows IH Hx]; simpl; constructor; [|assumption].
  rewrite Forall_forall in Hx. intros Hin.
  apply in_map_iff in Hin as (y & Hid & Hy). apply Hx in Hy. lia.
Qed.

Lemma strictly_sorted_nodup (l : list Z) : StronglySorted Z.lt l -> NoDup l.
Proof.
  induction 1 as [|x l Hl IH Hx]; constructor; [|assumption].
  rewrite Forall_forall in Hx. intros Hin. apply Hx in Hin. lia.
Qed.

(** C9: along any sequence of insertions and deletions from a fresh
    installation, the ids given to the inserted rows increase strictly from
    one insertion to the next, so none is given twice, also after
    deletions; every stored row bears one of them and no two stored rows
    the same; the id of the next inserted row is fixed by the store alone
    and above every id given before; and a stored row keeps its id and its
    content for as long as it is stored. *)
Theorem C9_ids_are_unique_and_increasing (calls : list world.call) :
  let db := world.run calls world.fresh in
  let ids := world.inserted_ids calls world.fresh in
  StronglySorted Z.lt ids /\
  NoDup ids /\
  NoDup (map db_helper.id (db_helper.personal_expenses db)) /\
  Forall (fun row => In (db_helper.id row) ids) (db_helper.personal_expenses db) /\
  (forall c i, world.inserted_id c db = Some i ->
     i = db_helper.next_rowid db /\ Forall (fun j => j < i) ids) /\
  (forall c row row',
     In row (db_helper.personal_expenses db) ->
     In row' (db_helper.personal_expenses (world.run_call c db)) ->
     db_helper.id row' = db_helper.id row -> row' = row).
Proof.
  intros db ids.
  pose proof (well_formed_run calls world.fresh well_formed_fresh) as Hwf.
  fold db in Hwf.
  destruct (inserted_ids_increase calls world.fresh) as [_ Hsorted]. fold ids in Hsorted.
  split; [exact Hsorted|].
  split; [now apply strictly_sorted_nodup|].
  split; [apply sorted_ids_nodup, Hwf|].
  split.
  { rewrite Forall_forall. intros row Hin.
    destruct (stored_ids_inserted calls world.fresh row Hin) as [[] | H]. exact H. }
  split.
  - intros c i Hi. apply inserted_id_Some in Hi as (Hi & _). split; [exact Hi|].
    pose proof (inserted_ids_bounded calls world.fresh) as Hb.
    fold db in Hb. fold ids in Hb.
    eapply Forall_impl; [|exact Hb]. simpl. intros j Hj.
    pose proof (next_rowid_above_sequence db). lia.
  - intros c row row' Hrow Hrow' Hid.
    pose proof (well_formed_run_call c db Hwf) as Hwf'.
    destruct (world.inserted_id c db) as [i|] eqn:E.
    + apply inserted_id_Some in E as (Hi & _ & new & Hnew & Hrows).
      rewrite Hrows in Hrow'. apply in_app_or in Hrow' as [Hin | [<- | []]].
      * apply (sorted_ids_injective (db_helper.personal_expenses db)); auto.
        apply Hwf.
      * apply next_rowid_fresh in Hrow. lia.
    + apply inserted_id_None in E as [_ Hsub].
      apply (sorted_ids_injective (db_helper.personal_expenses db)); auto.
      apply Hwf.
Qed.

(** Ids are not given again after a deletion: insert, delete the row,
    insert again. *)
Example id_after_deletion :
  let calls :=
    [world.add 10 "FOOD" "2024-01-15" (Some "a"%string)
       (world.clock_at 0 example.ten_o_clock);
     world.delete 1;
     world.add 20 "RENT" "2024-01-15" (Some "b"%string)
       (world.clock_at 0 example.ten_o_clock)] in
  world.inserted_ids calls world.fresh = [1; 2] /\
  map db_helper.id (db_helper.personal_expenses (world.run calls world.fresh)) = [2].
Proof.
  vm_compute. split; reflexivity.
Qed.

(* ------------------------------------------------------------------------- *)
(** ** get_total_expenses                                                     *)
(* ------------------------------------------------------------------------- *)

Lemma filter_split_perm {A : Type} (f : A -> bool) (l : list A) :
  Permutation l (filter f l ++ filter (fun x => negb (f x)) l).
Proof.
  induction l as [|x l IH]; simpl; [constructor|].
  destruct (f x); simpl.
  - now constructor.
  - now apply Permutation_cons_app.
Qed.

Lemma category_where_label (c : string) (row : db_helper.expense) :
  c <> ""%string ->
  db_helper.category_where (Some c) row = (db_helper.category row =? c)%string.
Proof.
  intros Hc. unfold db_helper.category_where, py.truthy_str.
  destruct (String.eqb_spec c "") as [E | _]; [contradiction|]. simpl.
  now destruct (db_helper.category row =? c)%string.
Qed.












(* ========================================================================= *)
(** * Further properties of the store and of the handlers                     *)
(* ========================================================================= *)

(* ------------------------------------------------------------------------- *)
(** ** check_duplicate: which row is returned                                 *)
(* ------------------------------------------------------------------------- *)

Lemma created_at_desc_total (a b : db_helper.expense) :
  db_helper.created_at_desc a b = false -> db_helper.created_at_desc b a = true.
Proof.
  unfold db_helper.created_at_desc. rewrite Z.leb_gt, Z.leb_le. lia.
Qed.

Lemma created_at_desc_trans (a b c : db_helper.expense) :
  db_helper.created_at_desc a b = true -> db_helper.created_at_desc b c = true ->
  db_helper.created_at_desc a c = true.
Proof.
  unfold db_helper.created_at_desc. rewrite !Z.leb_le. lia.
Qed.

(** The head of a sorted result precedes every row of it. *)
Lemma limit_1_first {A : Type} (le : A -> A -> bool) (l : list A) (e x : A) :
  (forall a, le a a = true) ->
  StronglySorted (sql.precedes le) l ->
  sql.limit_1 l = Some e -> In x l -> le e x = true.
Proof.
  intros Hrefl Hsorted He Hx.
  destruct l as [|y l]; [discriminate|]. injection He as ->.
  inversion Hsorted as [|? ? _ Hall]; subst. rewrite Forall_forall in Hall.
  destruct Hx as [-> | Hx]; [apply Hrefl | now apply Hall].
Qed.

Lemma check_duplicate_max (a : float) (c d : string)
    (s : option string) (m now : Z) (db : db_helper.database)
    (e row : db_helper.expense) :
  db_helper.check_duplicate a c d s m now db = Some e ->
  In row (db_helper.personal_expenses db) ->
  sql.holds (db_helper.duplicate_where a c d s (db_helper.time_threshold now m) row)
  = true ->
  db_helper.created_at row <= db_helper.created_at e.
Proof.
  unfold db_helper.check_duplicate. intros He Hin Hrow.
  apply Z.leb_le.
  change (db_helper.created_at_desc e row = true).
  refine (limit_1_first db_helper.created_at_desc _ e row _ _ He _).
  - intros x. unfold db_helper.created_at_desc. apply Z.leb_refl.
  - apply order_by_sorted; [apply created_at_desc_total | apply created_at_desc_trans].
  - apply order_by_In, filter_In. split; assumption.
Qed.

(** The row [check_duplicate] returns is a newest one among the stored rows
    that meet its WHERE clause: none of them was created later
    (ORDER BY created_at DESC LIMIT 1). *)
Theorem check_duplicate_returns_newest (a : float) (c d : string)
    (s : option string) (m now : Z) (db : db_helper.database)
    (e row : db_helper.expense) :
  db_helper.check_duplicate a c d s m now db = Some e ->
  In row (db_helper.personal_expenses db) ->
  sql.holds (db_helper.duplicate_where a c d s (db_helper.time_threshold now m) row)
  = true ->
  db_helper.created_at row <= db_helper.created_at e.
Proof.
  apply check_duplicate_max.
Qed.

Lemma check_duplicate_returns_newest_witness :
  db_helper.created_at (example.lunch 1 1705312800)
  <= db_helper.created_at (example.lunch 2 1705312900).
Proof.
  apply (check_duplicate_returns_newest 100 "FOOD" "2024-01-15" (Some "lunch"%string)
           5 (db_helper.datetime_now (world.clock_at 0 (example.ten_o_clock + world.minutes 2)))
           (db_helper.mk_database
              [example.lunch 1 1705312800; example.lunch 2 1705312900] 2)).
  - vm_compute. reflexivity.
  - simpl. auto.
  - vm_compute. reflexivity.
Defined.

(** A wider window never loses a duplicate: what is found with a window of
    [m] minutes is found with any longer window, and the row then returned
    was created at the same second.  (Thresholds are integers of seconds
    here; the range of dates [datetime] can represent is not modelled.) *)
Theorem wider_window_same_answer (a : float) (c d : string) (s : option string)
    (m m' now : Z) (db : db_helper.database) (e : db_helper.expense) :
  m <= m' ->
  db_helper.check_duplicate a c d s m now db = Some e ->
  exists e',
    db_helper.check_duplicate a c d s m' now db = Some e' /\
    db_helper.created_at e' = db_helper.created_at e.
Proof.
  intros Hm He.
  assert (Hth : db_helper.time_threshold now m' <= db_helper.time_threshold now m).
  { unfold db_helper.time_threshold. apply Z.div_le_mono; lia. }
  destruct (check_duplicate_Some _ _ _ _ _ _ _ _ He) as [Hin Hw].
  destruct (check_duplicate_found a c d s m' now db e Hin) as [e' He'].
  { eapply duplicate_where_threshold; eassumption. }
  exists e'. split; [exact He'|].
  apply Z.le_antisymm.
  - destruct (check_duplicate_Some _ _ _ _ _ _ _ _ He') as [Hin' Hw'].
    destruct (Z.le_gt_cases (db_helper.time_threshold now m) (db_helper.created_at e'))
      as [Hrecent | Hold].
    + apply (check_duplicate_max a c d s m now db e e' He Hin').
      apply duplicate_where_holds. apply duplicate_where_holds in Hw'. intuition.
    + apply duplicate_where_holds in Hw as (_ & _ & Hthe). lia.
  - apply (check_duplicate_max a c d s m' now db e' e He' Hin).
    eapply duplicate_where_threshold; eassumption.
Qed.

Lemma wider_window_same_answer_witness :
  exists e',
    db_helper.check_duplicate 100 "FOOD" "2024-01-15" (Some "lunch"%string) 60
      (example.ten_o_clock + world.minutes 2)
      (db_helper.mk_database
         [example.lunch 1 1705312800; example.lunch 2 1705312900] 2) = Some e' /\
    db_helper.created_at e' = db_helper.created_at (example.lunch 2 1705312900).
Proof.
  apply (wider_window_same_answer 100 "FOOD" "2024-01-15" (Some "lunch"%string)
           5 60 (example.ten_o_clock + world.minutes 2)).
  - lia.
  - vm_compute. reflexivity.
Defined.

(* ------------------------------------------------------------------------- *)
(** ** add_expense: when it raises, and what it does to the table             *)
(* ------------------------------------------------------------------------- *)


Lemma add_expense_returns (a : float) (c d : string) (s : option string)
    (clk : db_helper.clock) (db db' : db_helper.database) (o : db_helper.outcome) :
  db_helper.add_expense a c d s clk db = (py.Return o, db') ->
  (o = spec.duplicate_outcome (db_helper.expense_ o) /\ db' = db /\
   In (db_helper.expense_ o) (db_helper.personal_expenses db))
  \/
  (o = spec.created_outcome (spec.new_row a c d s clk db) /\
   db' = db_helper.mk_database
           (db_helper.personal_expenses db ++ [spec.new_row a c d s clk db])
           (db_helper.next_rowid db)).
Proof.
  intros H.
  destruct (add_expense_cases a c d s clk db)
    as [(x & Hx & E) | [(_ & _ & _ & E) | (_ & E)]];
    rewrite E in H; try discriminate; injection H as <- <-.
  - left. repeat split. now apply check_duplicate_Some in Hx as [Hin _].
  - right. split; reflexivity.
Qed.

(** What a returned dictionary says about the table.  With status
    "duplicate" nothing was written and the returned record is a stored one;
    with status "created" exactly one row was appended, it is the returned
    record, it carries the store's timestamp and an id above every other
    row's, and the id counter now stands at that id.  There is no third
    status. *)
Theorem add_expense_effect (a : float) (c d : string) (s : option string)
    (clk : db_helper.clock) (db db' : db_helper.database) (o : db_helper.outcome) :
  db_helper.add_expense a c d s clk db = (py.Return o, db') ->
  (db_helper.status o = "duplicate"%string /\ db' = db /\
   In (db_helper.expense_ o) (db_helper.personal_expenses db))
  \/
  (db_helper.status o = "created"%string /\
   db_helper.personal_expenses db' =
   db_helper.personal_expenses db ++ [db_helper.expense_ o] /\
   db_helper.sqlite_sequence db' = db_helper.id (db_helper.expense_ o) /\
   db_helper.created_at (db_helper.expense_ o) = db_helper.CURRENT_TIMESTAMP clk /\
   Forall (fun row => db_helper.id row < db_helper.id (db_helper.expense_ o))
          (db_helper.personal_expenses db)).
Proof.
  intros H.
  destruct (add_expense_returns a c d s clk db db' o H)
    as [(-> & -> & Hin) | (-> & ->)].
  - left. repeat split. exact Hin.
  - right. repeat split.
    apply Forall_forall. intros row Hin. now apply next_rowid_fresh.
Qed.

Lemma add_expense_effect_witness :
  let r := db_helper.add_expense 100 "FOOD" "2024-01-15" (Some "lunch"%string)
             (world.clock_at 0 example.ten_o_clock) world.fresh in
  exists o, fst r = py.Return o /\
    ((db_helper.status o = "duplicate"%string /\ snd r = world.fresh /\
      In (db_helper.expense_ o) (db_helper.personal_expenses world.fresh))
     \/
     (db_helper.status o = "created"%string /\
      db_helper.personal_expenses (snd r) =
      db_helper.personal_expenses world.fresh ++ [db_helper.expense_ o] /\
      db_helper.sqlite_sequence (snd r) = db_helper.id (db_helper.expense_ o) /\
      db_helper.created_at (db_helper.expense_ o) =
      db_helper.CURRENT_TIMESTAMP (world.clock_at 0 example.ten_o_clock) /\
      Forall (fun row => db_helper.id row < db_helper.id (db_helper.expense_ o))
             (db_helper.personal_expenses world.fresh))).
Proof.
  eexists. split; [vm_compute; reflexivity|].
  apply (add_expense_effect 100 "FOOD" "2024-01-15" (Some "lunch"%string)
           (world.clock_at 0 example.ten_o_clock) world.fresh).
  vm_compute. reflexivity.
Defined.

Lemma select_by_id_present (db : db_helper.database) (row : db_helper.expense) :
  StronglySorted (fun a b => db_helper.id a < db_helper.id b)
                 (db_helper.personal_expenses db) ->
  In row (db_helper.personal_expenses db) ->
  db_helper.select_by_id (db_helper.id row) db = Some row.
Proof.
  intros Hsorted Hin.
  destruct (db_helper.select_by_id (db_helper.id row) db) as [r|] eqn:E.
  - apply select_by_id_Some in E as [Hr Hid].
    f_equal. now apply (sorted_ids_injective _ _ _ Hsorted).
  - rewrite select_by_id_None in E. now apply E in Hin.
Qed.

Lemma add_expense_stores (a : float) (c d : string) (s : option string)
    (clk : db_helper.clock) (db db' : db_helper.database) (o : db_helper.outcome) :
  db_helper.add_expense a c d s clk db = (py.Return o, db') ->
  In (db_helper.expense_ o) (db_helper.personal_expenses db').
Proof.
  intros H.
  destruct (add_expense_returns a c d s clk db db' o H)
    as [(_ & -> & Hin) | (-> & ->)]; [exact Hin|].
  simpl. apply in_or_app. right. now left.
Qed.

(** Read your writes.  Whatever record [add_expense] returns, new or
    existing, is in the table afterwards: a lookup by its id gives it back,
    and it is in the full listing and in the listing of its category, in
    either sort order. *)
Theorem returned_expense_is_stored (a : float) (c d : string) (s : option string)
    (clk : db_helper.clock) (db db' : db_helper.database) (o : db_helper.outcome) :
  spec.well_formed db ->
  db_helper.add_expense a c d s clk db = (py.Return o, db') ->
  db_helper.select_by_id (db_helper.id (db_helper.expense_ o)) db'
  = Some (db_helper.expense_ o) /\
  forall newest_first : bool,
    In (db_helper.expense_ o) (db_helper.get_expenses None newest_first db') /\
    In (db_helper.expense_ o) (db_helper.get_expenses (Some c) newest_first db').
Proof.
  intros Hwf H.
  pose proof (add_expense_stores a c d s clk db db' o H) as Hin.
  pose proof (well_formed_add_expense a c d s clk db Hwf) as Hwf'.
  rewrite H in Hwf'. simpl in Hwf'.
  split.
  - apply select_by_id_present; [apply Hwf' | exact Hin].
  - intros newest_first. unfold db_helper.get_expenses.
    split; apply order_by_In, filter_In; (split; [exact Hin|]);
      apply category_where_true.
    + now left.
    + right. right. f_equal.
      destruct (outcome_content a c d s clk db db' o H) as (_ & Hc & _).
      now symmetry.
Qed.

Lemma returned_expense_is_stored_witness :
  let r := db_helper.add_expense 100 "FOOD" "2024-01-15" (Some "lunch"%string)
             (world.clock_at 0 example.ten_o_clock) world.fresh in
  exists o, fst r = py.Return o /\
    db_helper.select_by_id (db_helper.id (db_helper.expense_ o)) (snd r)
    = Some (db_helper.expense_ o) /\
    forall newest_first : bool,
      In (db_helper.expense_ o) (db_helper.get_expenses None newest_first (snd r)) /\
      In (db_helper.expense_ o)
         (db_helper.get_expenses (Some "FOOD"%string) newest_first (snd r)).
Proof.
  eexists. split; [vm_compute; reflexivity|].
  apply (returned_expense_is_stored 100 "FOOD" "2024-01-15" (Some "lunch"%string)
           (world.clock_at 0 example.ten_o_clock) world.fresh).
  - apply well_formed_fresh.
  - vm_compute. reflexivity.
Defined.

(* ------------------------------------------------------------------------- *)
(** ** delete_expense: what is removed and what stays                         *)
(* ------------------------------------------------------------------------- *)

Lemma filter_comm {A : Type} (f g : A -> bool) (l : list A) :
  filter f (filter g l) = filter g (filter f l).
Proof.
  induction l as [|x l IH]; [reflexivity|]. simpl.
  destruct (f x) eqn:Hf, (g x) eqn:Hg; simpl; rewrite ?Hf, ?Hg, IH; reflexivity.
Qed.

(** With or without a hit, the table after [delete_expense] is the old one
    without the rows of that id, and the id counter is untouched. *)
Lemma delete_expense_store (i : Z) (db : db_helper.database) :
  snd (db_helper.delete_expense i db) =
  db_helper.mk_database
    (filter (fun row => negb (db_helper.id row =? i)) (db_helper.personal_expenses db))
    (db_helper.sqlite_sequence db).
Proof.
  unfold db_helper.delete_expense.
  destruct (db_helper.select_by_id i db) as [row|] eqn:E; [reflexivity|].
  rewrite select_by_id_None in E. simpl.
  rewrite filter_all; [now destruct db|].
  intros row Hin. apply negb_true_iff, Z.eqb_neq. now apply E.
Qed.

Lemma delete_expense_found (i : Z) (db : db_helper.database) :
  fst (db_helper.delete_expense i db) = true <->
  exists row, In row (db_helper.personal_expenses db) /\ db_helper.id row = i.
Proof.
  unfold db_helper.delete_expense.
  destruct (db_helper.select_by_id i db) as [row|] eqn:E; simpl.
  - apply select_by_id_Some in E. split; [intros _; now exists row | reflexivity].
  - rewrite select_by_id_None in E. split; [discriminate|].
    intros (row & Hin & Hid). now apply E in Hin.
Qed.

Lemma delete_created_row (a : float) (c d : string) (s : option string)
    (clk : db_helper.clock) (db : db_helper.database) :
  db_helper.delete_expense (db_helper.next_rowid db)
    (db_helper.mk_database
       (db_helper.personal_expenses db ++ [spec.new_row a c d s clk db])
       (db_helper.next_rowid db))
  = (true, db_helper.mk_database (db_helper.personal_expenses db)
             (db_helper.next_rowid db)).
Proof.
  rewrite (surjective_pairing (db_helper.delete_expense _ _)).
  rewrite delete_expense_store. f_equal.
  - apply delete_expense_found. exists (spec.new_row a c d s clk db).
    split; [|reflexivity]. simpl. apply in_or_app. right. now left.
  - cbn [db_helper.personal_expenses db_helper.sqlite_sequence]. f_equal.
    rewrite filter_app. cbn [filter spec.new_row db_helper.id].
    rewrite Z.eqb_refl. cbn [negb]. rewrite app_nil_r.
    apply filter_all. intros row Hin. apply negb_true_iff, Z.eqb_neq.
    apply next_rowid_fresh in Hin. lia.
Qed.

(** Recording an expense and deleting it again gives back the table as it
    was, row for row; only the id counter remembers the insertion, so the id
    is not handed out again. *)
Theorem add_then_delete_restores_rows (a : float) (c d : string) (s : option string)
    (clk : db_helper.clock) (db db' : db_helper.database) (o : db_helper.outcome) :
  db_helper.add_expense a c d s clk db = (py.Return o, db') ->
  db_helper.status o = "created"%string ->
  db_helper.delete_expense (db_helper.id (db_helper.expense_ o)) db'
  = (true, db_helper.mk_database (db_helper.personal_expenses db)
             (db_helper.id (db_helper.expense_ o))) /\
  Forall (fun row => db_helper.id row < db_helper.id (db_helper.expense_ o))
         (db_helper.personal_expenses db) /\
  db_helper.sqlite_sequence db < db_helper.id (db_helper.expense_ o).
Proof.
  intros H Hstatus.
  destruct (add_expense_returns a c d s clk db db' o H)
    as [(Ho & _) | (-> & ->)].
  { rewrite Ho in Hstatus. discriminate. }
  cbn [spec.created_outcome db_helper.expense_].
  change (db_helper.id (spec.new_row a c d s clk db)) with (db_helper.next_rowid db).
  split; [apply delete_created_row|]. split.
  - apply Forall_forall. intros row Hin. now apply next_rowid_fresh.
  - unfold db_helper.next_rowid. lia.
Qed.

Lemma add_then_delete_restores_rows_witness :
  db_helper.delete_expense 2
    (db_helper.mk_database [example.lunch 1 1705312800; example.lunch 2 1705313400] 2)
  = (true, db_helper.mk_database [example.lunch 1 1705312800] 2) /\
  Forall (fun row => db_helper.id row < 2) [example.lunch 1 1705312800] /\
  1 < 2.
Proof.
  apply (add_then_delete_restores_rows 100 "FOOD" "2024-01-15" (Some "lunch"%string)
           (world.clock_at 0 (example.ten_o_clock + world.minutes 10))
           (db_helper.mk_database [example.lunch 1 1705312800] 1)
           (db_helper.mk_database
              [example.lunch 1 1705312800; example.lunch 2 1705313400] 2)
           (spec.created_outcome (example.lunch 2 1705313400))).
  - vm_compute. reflexivity.
  - reflexivity.
Defined.

Lemma delete_expense_split (db : db_helper.database) (row : db_helper.expense) :
  StronglySorted (fun a b => db_helper.id a < db_helper.id b)
                 (db_helper.personal_expenses db) ->
  In row (db_helper.personal_expenses db) ->
  exists before after,
    db_helper.personal_expenses db = before ++ row :: after /\
    db_helper.delete_expense (db_helper.id row) db
    = (true, db_helper.mk_database (before ++ after) (db_helper.sqlite_sequence db)).
Proof.
  intros Hsorted Hin.
  destruct (in_split _ _ Hin) as (before & after & Hrows).
  exists before, after. split; [exact Hrows|].
  rewrite (surjective_pairing (db_helper.delete_expense _ _)).
  rewrite delete_expense_store. f_equal.
  - apply delete_expense_found. now exists row.
  - f_equal.
    pose proof (sorted_ids_nodup _ Hsorted) as Hnodup.
    rewrite Hrows in Hnodup |- *.
    rewrite map_app in Hnodup. cbn [map] in Hnodup.
    apply NoDup_remove_2 in Hnodup.
    rewrite filter_app. cbn [filter]. rewrite Z.eqb_refl. cbn [negb].
    rewrite !filter_all; [reflexivity| |];
      intros x Hx; apply negb_true_iff, Z.eqb_neq; intros Hid;
      apply Hnodup, in_or_app; [right | left]; rewrite <- Hid; now apply in_map.
Qed.

(** Deleting a stored expense by its id takes exactly that row out of the
    table: the rows before it and the rows after it stay, in their order, and
    the id counter does not move. *)
Theorem delete_removes_that_row_only (db : db_helper.database)
    (row : db_helper.expense) :
  spec.well_formed db ->
  In row (db_helper.personal_expenses db) ->
  exists before after,
    db_helper.personal_expenses db = before ++ row :: after /\
    db_helper.delete_expense (db_helper.id row) db
    = (true, db_helper.mk_database (before ++ after) (db_helper.sqlite_sequence db)).
Proof.
  intros Hwf. apply delete_expense_split, Hwf.
Qed.

Lemma delete_removes_that_row_only_witness :
  exists before after,
    db_helper.personal_expenses
      (db_helper.mk_database
         [example.lunch 1 1705312800; example.lunch 2 1705313400] 2)
    = before ++ example.lunch 1 1705312800 :: after /\
    db_helper.delete_expense (db_helper.id (example.lunch 1 1705312800))
      (db_helper.mk_database
         [example.lunch 1 1705312800; example.lunch 2 1705313400] 2)
    = (true, db_helper.mk_database (before ++ after) 2).
Proof.
  apply (delete_removes_that_row_only
           (db_helper.mk_database
              [example.lunch 1 1705312800; example.lunch 2 1705313400] 2)).
  - constructor; cbn [db_helper.personal_expenses db_helper.sqlite_sequence].
    + repeat constructor.
    + repeat constructor; vm_compute; discriminate.
    + repeat constructor.
    + constructor; [|constructor; [|constructor]];
        apply (proj1 (str_in_In _ _)); reflexivity.
  - simpl. now left.
Defined.

(** Two deletions can be made in either order: each finds its row or not as
    it would have alone, and the table at the end is the same. *)
Theorem deletions_commute (i j : Z) (db : db_helper.database) :
  i <> j ->
  fst (db_helper.delete_expense i (snd (db_helper.delete_expense j db)))
  = fst (db_helper.delete_expense i db) /\
  snd (db_helper.delete_expense i (snd (db_helper.delete_expense j db)))
  = snd (db_helper.delete_expense j (snd (db_helper.delete_expense i db))).
Proof.
  intros Hij. split.
  - apply eq_true_iff_eq. rewrite !delete_expense_found.
    split; intros (row & Hin & Hid); exists row; (split; [|exact Hid]).
    + now apply delete_expense_rows in Hin as [Hin _].
    + apply delete_expense_rows. split; [exact Hin | lia].
  - rewrite !delete_expense_store.
    cbn [db_helper.personal_expenses db_helper.sqlite_sequence].
    f_equal. apply filter_comm.
Qed.

Lemma deletions_commute_witness :
  fst (db_helper.delete_expense 1 (snd (db_helper.delete_expense 2 example.small_ledger)))
  = fst (db_helper.delete_expense 1 example.small_ledger) /\
  snd (db_helper.delete_expense 1 (snd (db_helper.delete_expense 2 example.small_ledger)))
  = snd (db_helper.delete_expense 2 (snd (db_helper.delete_expense 1 example.small_ledger))).
Proof.
  apply (deletions_commute 1 2 example.small_ledger). lia.
Defined.

(* ------------------------------------------------------------------------- *)
(** ** get_total_expenses and get_expenses across categories                  *)
(* ------------------------------------------------------------------------- *)

(** The total is always a number: whatever amounts are stored and whatever
    the filter, [get_total_expenses] does not return NaN (a sum that is NaN
    comes back from the store as NULL and is reported as 0). *)
Theorem total_is_never_nan (category_ : option string) (db : db_helper.database) :
  is_nan (db_helper.get_total_expenses category_ db) = false.
Proof.
  unfold db_helper.get_total_expenses, db_helper.sum_real, sql.bind_real.
  destruct (map db_helper.amount _) as [|x xs]; [reflexivity|].
  destruct (is_nan (fold_left PrimFloat.add (x :: xs) 0%float)) eqn:E; [reflexivity|].
  destruct (py.truthy_float _); [exact E | reflexivity].
Qed.

Lemma add_expense_other_category (a : float) (c c' d : string) (s : option string)
    (clk : db_helper.clock) (db : db_helper.database) :
  c' <> c -> c' <> ""%string ->
  filter (db_helper.category_where (Some c'))
    (db_helper.personal_expenses (snd (db_helper.add_expense a c d s clk db)))
  = filter (db_helper.category_where (Some c')) (db_helper.personal_expenses db).
Proof.
  intros Hc Hne.
  destruct (add_expense_cases a c d s clk db)
    as [(x & _ & E) | [(_ & _ & _ & E) | (_ & E)]]; rewrite E; try reflexivity.
  cbn [snd db_helper.personal_expenses].
  rewrite filter_app. cbn [filter].
  rewrite (category_where_label c' _ Hne). cbn [spec.new_row db_helper.category].
  destruct (String.eqb_spec c c') as [Heq | _]; [congruence|].
  apply app_nil_r.
Qed.

(** Recording an expense in one category leaves every other category as it
    was: its listing, in either order, and its total do not change. *)
Theorem add_keeps_other_categories (a : float) (c c' d : string) (s : option string)
    (clk : db_helper.clock) (db : db_helper.database) :
  c' <> c -> c' <> ""%string ->
  (forall newest_first : bool,
     db_helper.get_expenses (Some c') newest_first
       (snd (db_helper.add_expense a c d s clk db))
     = db_helper.get_expenses (Some c') newest_first db) /\
  db_helper.get_total_expenses (Some c') (snd (db_helper.add_expense a c d s clk db))
  = db_helper.get_total_expenses (Some c') db.
Proof.
  intros Hc Hne.
  unfold db_helper.get_expenses, db_helper.get_total_expenses.
  rewrite (add_expense_other_category a c c' d s clk db Hc Hne).
  split; reflexivity.
Qed.

Lemma add_keeps_other_categories_witness :
  (forall newest_first : bool,
     db_helper.get_expenses (Some "RENT"%string) newest_first
       (snd (db_helper.add_expense 100 "FOOD" "2024-01-15" (Some "lunch"%string)
               (world.clock_at 0 example.ten_o_clock) example.small_ledger))
     = db_helper.get_expenses (Some "RENT"%string) newest_first example.small_ledger) /\
  db_helper.get_total_expenses (Some "RENT"%string)
    (snd (db_helper.add_expense 100 "FOOD" "2024-01-15" (Some "lunch"%string)
            (world.clock_at 0 example.ten_o_clock) example.small_ledger))
  = db_helper.get_total_expenses (Some "RENT"%string) example.small_ledger.
Proof.
  apply (add_keeps_other_categories 100 "FOOD" "RENT" "2024-01-15"
           (Some "lunch"%string) (world.clock_at 0 example.ten_o_clock)
           example.small_ledger); discriminate.
Defined.

(** Deleting an expense leaves every category but its own as it was. *)
Theorem delete_keeps_other_categories (db : db_helper.database)
    (row : db_helper.expense) (c' : string) :
  spec.well_formed db ->
  In row (db_helper.personal_expenses db) ->
  c' <> db_helper.category row -> c' <> ""%string ->
  (forall newest_first : bool,
     db_helper.get_expenses (Some c') newest_first
       (snd (db_helper.delete_expense (db_helper.id row) db))
     = db_helper.get_expenses (Some c') newest_first db) /\
  db_helper.get_total_expenses (Some c')
    (snd (db_helper.delete_expense (db_helper.id row) db))
  = db_helper.get_total_expenses (Some c') db.
Proof.
  intros Hwf Hin Hc Hne.
  destruct (delete_expense_split db row (spec.wf_sorted db Hwf) Hin)
    as (before & after & Hrows & Hdel).
  unfold db_helper.get_expenses, db_helper.get_total_expenses.
  rewrite Hdel, Hrows. cbn [snd db_helper.personal_expenses].
  rewrite !filter_app. cbn [filter].
  rewrite (category_where_label c' row Hne).
  destruct (String.eqb_spec (db_helper.category row) c') as [Heq | _]; [congruence|].
  split; reflexivity.
Qed.

Lemma delete_keeps_other_categories_witness :
  (forall newest_first : bool,
     db_helper.get_expenses (Some "RENT"%string) newest_first
       (snd (db_helper.delete_expense 1
               (db_helper.mk_database
                  [example.lunch 1 1705312800; example.lunch 2 1705313400] 2)))
     = db_helper.get_expenses (Some "RENT"%string) newest_first
         (db_helper.mk_database
            [example.lunch 1 1705312800; example.lunch 2 1705313400] 2)) /\
  db_helper.get_total_expenses (Some "RENT"%string)
    (snd (db_helper.delete_expense 1
            (db_helper.mk_database
               [example.lunch 1 1705312800; example.lunch 2 1705313400] 2)))
  = db_helper.get_total_expenses (Some "RENT"%string)
      (db_helper.mk_database
         [example.lunch 1 1705312800; example.lunch 2 1705313400] 2).
Proof.
  apply (delete_keeps_other_categories
           (db_helper.mk_database
              [example.lunch 1 1705312800; example.lunch 2 1705313400] 2)
           (example.lunch 1 1705312800) "RENT").
  - constructor; cbn [db_helper.personal_expenses db_helper.sqlite_sequence].
    + repeat constructor.
    + repeat constructor; vm_compute; discriminate.
    + repeat constructor.
    + constructor; [|constructor; [|constructor]];
        apply (proj1 (str_in_In _ _)); reflexivity.
  - simpl. now left.
  - discriminate.
  - discriminate.
Defined.

Section FilterOrderBy.
Context {A : Type} (le : A -> A -> bool) (keep : A -> bool).
Hypothesis le_total : forall a b, le a b = false -> le b a = true.
Hypothesis le_trans : forall a b c, le a b = true -> le b c = true -> le a c = true.

Lemma insert_sorted_first (x : A) (l : list A) :
  Forall (sql.precedes le x) l -> sql.insert_sorted le x l = x :: l.
Proof.
  intros H. destruct l as [|y l]; [reflexivity|].
  inversion H as [|? ? Hy _]; subst. simpl. now rewrite Hy.
Qed.

Lemma filter_insert_sorted (x : A) (l : list A) :
  StronglySorted (sql.precedes le) l ->
  filter keep (sql.insert_sorted le x l)
  = if keep x then sql.insert_sorted le x (filter keep l) else filter keep l.
Proof.
  induction 1 as [|y l Hsorted IH Hy]; simpl.
  - now destruct (keep x).
  - destruct (le x y) eqn:Hxy; simpl.
    + destruct (keep x) eqn:Hx; [|reflexivity].
      symmetry. apply insert_sorted_first.
      destruct (keep y); [constructor; [exact Hxy|]|];
        apply forall_filter; revert Hy; apply Forall_impl;
        intros z Hz; exact (le_trans x y z Hxy Hz).
    + destruct (keep y) eqn:Hky; rewrite IH; destruct (keep x); simpl;
        rewrite ?Hxy; reflexivity.
Qed.

Lemma filter_order_by (l : list A) :
  filter keep (sql.order_by le l) = sql.order_by le (filter keep l).
Proof.
  induction l as [|x l IH]; [reflexivity|].
  change (sql.order_by le (x :: l)) with (sql.insert_sorted le x (sql.order_by le l)).
  rewrite filter_insert_sorted by (now apply order_by_sorted).
  simpl. destruct (keep x); [|exact IH].
  change (sql.order_by le (x :: filter keep l))
    with (sql.insert_sorted le x (sql.order_by le (filter keep l))).
  now rewrite IH.
Qed.
End FilterOrderBy.

(** The listing of one category is the full listing with the other
    categories left out: the rows of a category come in the same order in
    both, for either sort order.  (Rows that tie on both sort keys are taken
    in table order, as [sql.order_by] does.) *)
Theorem category_listing_is_filtered_full_listing (category_ : option string)
    (newest_first : bool) (db : db_helper.database) :
  db_helper.get_expenses category_ newest_first db
  = filter (db_helper.category_where category_)
      (db_helper.get_expenses None newest_first db).
Proof.
  unfold db_helper.get_expenses.
  replace (filter (db_helper.category_where None) (db_helper.personal_expenses db))
    with (db_helper.personal_expenses db)
    by (symmetry; apply filter_all; reflexivity).
  symmetry. destruct newest_first.
  - apply filter_order_by.
    + intros a b H. rewrite date_desc_flip in *. now apply date_asc_total.
    + intros a b c H1 H2. rewrite date_desc_flip in *.
      exact (date_asc_trans c b a H2 H1).
  - apply filter_order_by; [apply date_asc_total | apply date_asc_trans].
Qed.

(* ------------------------------------------------------------------------- *)
(** ** The routes: status codes and what they mean for the table              *)
(* ------------------------------------------------------------------------- *)

Section Routes.

Variable upper : string -> string.
Variable float_of_int : Z -> option float.
Variable float_of_str : string -> option float.

#[local] Abbreviation create_expense :=
  (app.create_expense upper float_of_int float_of_str).
#[local] Abbreviation float_ := (app.float_ float_of_int float_of_str).

(** Every POST /expenses is answered in one of four ways, and the status
    code tells what happened to the table: 400 with an error text or 500
    with an exception, and nothing written; 200 with a record that was
    stored already, and nothing written; 201 with a new record, which is the
    one row appended and has an id above all ids handed out before. *)
Theorem create_expense_answers (body : app.json_body) (clk : db_helper.clock)
    (db : db_helper.database) :
  (exists msg, create_expense body clk db = ((app.error msg, 400), db)) \/
  (exists e, create_expense body clk db = ((app.exception e, 500), db)) \/
  (exists row,
      create_expense body clk db
      = ((app.expense_result (spec.duplicate_outcome row), 200), db) /\
      In row (db_helper.personal_expenses db)) \/
  (exists row,
      create_expense body clk db
      = ((app.expense_result (spec.created_outcome row), 201),
         db_helper.mk_database (db_helper.personal_expenses db ++ [row])
           (db_helper.id row)) /\
      Forall (fun r => db_helper.id r < db_helper.id row)
             (db_helper.personal_expenses db) /\
      db_helper.sqlite_sequence db < db_helper.id row).
Proof.
  unfold app.create_expense.
  destruct body as [|d|]; [left; eauto| |right; left; eauto].
  destruct (app.is_none (app.amount d)); [left; eauto|].
  destruct (py.truthy (app.category d)); cbn [negb]; [|left; eauto].
  destruct (app.date d) as [dt|] eqn:Hdate; [|left; eauto].
  destruct (py.truthy_str (Some dt)); cbn [negb]; [|left; eauto].
  destruct (float_ (app.amount d)) as [a|e] eqn:Hfloat;
    [|destruct e; cbv beta iota; (left; eauto; fail) || (right; left; eauto)].
  destruct (a <=? 0)%float eqn:Hpos; [left; eauto|].
  destruct (app.category d) as [ | | | |c0| ] eqn:Hc0; try (right; left; eauto; fail).
  destruct (py.str_in (upper c0) app.VALID_CATEGORIES) eqn:Hcat; cbn [negb];
    [|left; eauto].
  destruct (add_expense_cases a (upper c0) dt (app.get_description (app.description d))
              clk db) as [(e & He & E) | [(_ & _ & _ & E) | (_ & E)]];
    rewrite E; cbv beta iota.
  - right. right. left. exists e. split; [reflexivity|].
    now apply check_duplicate_Some in He as [Hin _].
  - right. right. right.
    exists (spec.new_row a (upper c0) dt (app.get_description (app.description d)) clk db).
    split; [reflexivity|]. split.
    + apply Forall_forall. intros r Hin. now apply next_rowid_fresh.
    + cbn [spec.new_row db_helper.id]. unfold db_helper.next_rowid. lia.
  - right. left. eauto.
Qed.


Lemma create_expense_category (body : app.json_body) (clk : db_helper.clock)
    (db db' : db_helper.database) (o : db_helper.outcome) (code : Z)
    (d : app.json_object) (c0 : string) :
  create_expense body clk db = ((app.expense_result o, code), db') ->
  body = app.data d -> app.category d = py.Str_ c0 ->
  c0 <> ""%string /\ In (upper c0) app.VALID_CATEGORIES /\
  db_helper.category (db_helper.expense_ o) = upper c0 /\
  In (db_helper.expense_ o) (db_helper.personal_expenses db').
Proof.
  intros H -> Hc0.
  assert (Hne : c0 <> ""%string).
  { intros ->. revert H. unfold app.create_expense. rewrite Hc0.
    destruct (app.is_none (app.amount d)); discriminate. }
  destruct (create_expense_result upper float_of_int float_of_str _ _ _ _ _ _ H)
    as (d' & a & c1 & dt & Hd & _ & _ & Hc1 & Hcat & _ & Hadd & _).
  injection Hd as <-. rewrite Hc0 in Hc1. injection Hc1 as <-.
  repeat split.
  - exact Hne.
  - now apply str_in_In.
  - now destruct (outcome_content _ _ _ _ _ _ _ _ Hadd) as (_ & Hc & _).
  - exact (add_expense_stores _ _ _ _ _ _ _ _ Hadd).
Qed.

(** After a POST that was answered with a record (200 or 201), a GET
    /expenses lists that record, in either sort order: without a category,
    and with the category as it was sent, in which case every record listed
    has the category of the posted one. *)
Theorem posted_expense_is_listed (body : app.json_body) (clk : db_helper.clock)
    (db db' : db_helper.database) (o : db_helper.outcome) (code : Z)
    (d : app.json_object) (c0 : string) (sort : option string) :
  create_expense body clk db = ((app.expense_result o, code), db') ->
  body = app.data d -> app.category d = py.Str_ c0 ->
  (exists expenses total,
      app.get_expenses upper None sort db'
      = (app.expense_list expenses total (Z.of_nat (List.length expenses)), 200) /\
      In (db_helper.expense_ o) expenses) /\
  (exists expenses total,
      app.get_expenses upper (Some c0) sort db'
      = (app.expense_list expenses total (Z.of_nat (List.length expenses)), 200) /\
      In (db_helper.expense_ o) expenses /\
      Forall (fun row => db_helper.category row
                         = db_helper.category (db_helper.expense_ o)) expenses).
Proof.
  intros H Hbody Hc0.
  destruct (create_expense_category body clk db db' o code d c0 H Hbody Hc0)
    as (Hne & Hvalid & Hcat & Hin).
  split.
  - eexists _, _. split; [reflexivity|].
    apply order_by_In, filter_In. split; [exact Hin | reflexivity].
  - unfold app.get_expenses, py.truthy_str.
    destruct (String.eqb_spec c0 "") as [E | _]; [contradiction|].
    cbn [negb option_map].
    rewrite (proj2 (str_in_In _ _) Hvalid). cbn [negb].
    eexists _, _. split; [reflexivity|]. split.
    + apply order_by_In, filter_In. split; [exact Hin|].
      apply category_where_true. right. right. now rewrite Hcat.
    + apply Forall_forall. intros row Hrow.
      apply order_by_In, filter_In in Hrow as [_ Hrow].
      apply category_where_true in Hrow as [Hrow | [Hrow | Hrow]];
        try discriminate.
      * injection Hrow as Hrow. rewrite Hrow in Hvalid.
        exfalso. revert Hvalid. clear. vm_compute. intuition discriminate.
      * injection Hrow as Hrow. congruence.
Qed.

(** After a POST that was answered with a record, a DELETE of the id in the
    answer succeeds with 200 and removes the record; a second DELETE of the
    same id is answered 404 and changes nothing. *)
Theorem posted_expense_can_be_deleted (body : app.json_body)
    (clk : db_helper.clock) (db db' : db_helper.database)
    (o : db_helper.outcome) (code : Z) :
  create_expense body clk db = ((app.expense_result o, code), db') ->
  exists db'',
    app.delete_expense (db_helper.id (db_helper.expense_ o)) db'
    = ((app.deleted (db_helper.id (db_helper.expense_ o)), 200), db'') /\
    ~ In (db_helper.expense_ o) (db_helper.personal_expenses db'') /\
    app.delete_expense (db_helper.id (db_helper.expense_ o)) db''
    = ((app.error "Expense not found", 404), db'').
Proof.
  intros H.
  destruct (create_expense_result upper float_of_int float_of_str _ _ _ _ _ _ H)
    as (d & a & c0 & dt & _ & _ & _ & _ & _ & _ & Hadd & _).
  pose proof (add_expense_stores _ _ _ _ _ _ _ _ Hadd) as Hin.
  set (i := db_helper.id (db_helper.expense_ o)).
  exists (snd (db_helper.delete_expense i db')).
  assert (Hgone : forall row,
             In row (db_helper.personal_expenses (snd (db_helper.delete_expense i db')))
             -> db_helper.id row <> i).
  { intros row Hrow. now apply delete_expense_rows in Hrow. }
  split; [|split].
  - unfold app.delete_expense.
    rewrite (surjective_pairing (db_helper.delete_expense i db')).
    replace (fst (db_helper.delete_expense i db')) with true; [reflexivity|].
    symmetry. apply delete_expense_found. now exists (db_helper.expense_ o).
  - intros Hrow. now apply Hgone in Hrow.
  - unfold app.delete_expense.
    rewrite (surjective_pairing (db_helper.delete_expense i _)).
    replace (fst (db_helper.delete_expense i (snd (db_helper.delete_expense i db'))))
      with false.
    + f_equal. unfold db_helper.delete_expense at 1.
      replace (db_helper.select_by_id i (snd (db_helper.delete_expense i db')))
        with (@None db_helper.expense); [reflexivity|].
      symmetry. now apply select_by_id_None.
    + symmetry. apply not_true_is_false. intros Hfound.
      apply delete_expense_found in Hfound as (row & Hrow & Hid).
      now apply Hgone in Hrow.
Qed.

End Routes.


Lemma posted_expense_is_listed_witness :
  let row := db_helper.mk_expense 1 12.5 "FOOD" (Some ""%string) "2024-01-15"
               1705312800 in
  let db' := db_helper.mk_database [row] 1 in
  (exists expenses total,
      app.get_expenses world.upper_ascii None (Some "date_desc"%string) db'
      = (app.expense_list expenses total (Z.of_nat (List.length expenses)), 200) /\
      In row expenses) /\
  (exists expenses total,
      app.get_expenses world.upper_ascii (Some "food"%string)
        (Some "date_desc"%string) db'
      = (app.expense_list expenses total (Z.of_nat (List.length expenses)), 200) /\
      In row expenses /\
      Forall (fun r => db_helper.category r = db_helper.category row) expenses).
Proof.
  apply (posted_expense_is_listed world.upper_ascii (fun _ => None) (fun _ => None)
           (request.post (py.Float_ 12.5) (py.Str_ "food") app.absent)
           (world.clock_at 0 example.ten_o_clock) world.fresh
           (db_helper.mk_database
              [db_helper.mk_expense 1 12.5 "FOOD" (Some ""%string) "2024-01-15"
                 1705312800] 1)
           (spec.created_outcome
              (db_helper.mk_expense 1 12.5 "FOOD" (Some ""%string) "2024-01-15"
                 1705312800))
           201
           (app.mk_json_object (py.Float_ 12.5) (py.Str_ "food")
              (Some "2024-01-15"%string) app.absent)
           "food" (Some "date_desc"%string)).
  - vm_compute. reflexivity.
  - reflexivity.
  - reflexivity.
Defined.

Lemma posted_expense_can_be_deleted_witness :
  let row := db_helper.mk_expense 1 12.5 "FOOD" (Some ""%string) "2024-01-15"
               1705312800 in
  exists db'',
    app.delete_expense 1 (db_helper.mk_database [row] 1)
    = ((app.deleted 1, 200), db'') /\
    ~ In row (db_helper.personal_expenses db'') /\
    app.delete_expense 1 db'' = ((app.error "Expense not found", 404), db'').
Proof.
  apply (posted_expense_can_be_deleted world.upper_ascii (fun _ => None)
           (fun _ => None)
           (request.post (py.Float_ 12.5) (py.Str_ "food") app.absent)
           (world.clock_at 0 example.ten_o_clock) world.fresh
           (db_helper.mk_database
              [db_helper.mk_expense 1 12.5 "FOOD" (Some ""%string) "2024-01-15"
                 1705312800] 1)
           (spec.created_outcome
              (db_helper.mk_expense 1 12.5 "FOOD" (Some ""%string) "2024-01-15"
                 1705312800))
           201).
  vm_compute. reflexivity.
Defined.

(* ------------------------------------------------------------------------- *)
(** ** The page and the API                                                   *)
(* ------------------------------------------------------------------------- *)

(** What the number input of the form lets through, with its minimum of
    0.01, is a number above 0. *)
Lemma float_min_value (x : float) :
  (0.01 <=? x)%float = true -> (x <=? 0)%float = false /\ is_nan x = false.
Proof.
  unfold is_nan. rewrite !leb_spec, eqb_spec.
  set (m := Prim2SF 0.01). vm_compute in m. subst m.
  change (Prim2SF 0) with (S754_zero false).
  destruct (Prim2SF x) as [s | s | | s m e] eqn:E; try destruct s;
    try discriminate; intros _; (split; [reflexivity|]);
    rewrite SFeqb_refl; (reflexivity || discriminate).
Qed.

(** The list the page offers is the list of the API, whether GET
    /categories was answered or the built-in list is used. *)
Lemma page_categories (response : frontend.categories_response) :
  page.from_api_or_failed response ->
  frontend.get_categories response = app.VALID_CATEGORIES.
Proof.
  intros [-> | H]; [reflexivity|].
  destruct response as [[code body]|]; [|reflexivity].
  unfold frontend.get_categories.
  destruct (Z.eqb_spec code 200) as [E | _]; [contradiction | reflexivity].
Qed.

Lemma valid_category_not_empty (c : string) :
  In c app.VALID_CATEGORIES -> c <> ""%string.
Proof.
  intros H ->. revert H. vm_compute. intuition discriminate.
Qed.

Section Page.

Variable upper : string -> string.
Variable float_of_int : Z -> option float.
Variable float_of_str : string -> option float.

(** [str.upper] leaves the labels of the list, which are upper case, as they
    are. *)
Hypothesis upper_label : forall c, In c app.VALID_CATEGORIES -> upper c = c.

(** What the form of the page submits is always accepted.  With an amount
    the number input lets through (at least 0.01), a category picked from the
    list the page offers and the date as the page formats it (not empty), the
    POST is answered 200 or 201, never 400 or 500, and the record in the
    answer has the category, date and description of the form. *)
Theorem form_submission_is_accepted (response : frontend.categories_response)
    (amount : float) (category description date : string)
    (clk : db_helper.clock) (db : db_helper.database) :
  page.from_api_or_failed response ->
  In category (frontend.get_categories response) ->
  (0.01 <=? amount)%float = true ->
  date <> ""%string ->
  exists o code db',
    app.create_expense upper float_of_int float_of_str
      (app.data (frontend.expense_data amount category description date)) clk db
    = ((app.expense_result o, code), db') /\
    (code = 200 \/ code = 201) /\
    db_helper.category (db_helper.expense_ o) = category /\
    db_helper.expense_date (db_helper.expense_ o) = date /\
    db_helper.description (db_helper.expense_ o) = Some description.
Proof.
  intros Hresponse Hcategory Hamount Hdate.
  rewrite (page_categories response Hresponse) in Hcategory.
  destruct (float_min_value amount Hamount) as [Hpos Hnan].
  pose proof (valid_category_not_empty category Hcategory) as Hne.
  unfold app.create_expense, frontend.expense_data.
  cbn [app.amount app.category app.date app.description app.is_none py.truthy
       py.truthy_str app.float_ app.get_description].
  destruct (String.eqb_spec category "") as [E | _]; [contradiction|].
  destruct (String.eqb_spec date "") as [E | _]; [contradiction|].
  cbn [negb]. rewrite Hpos, (upper_label category Hcategory).
  rewrite (proj2 (str_in_In _ _) Hcategory). cbn [negb].
  set (description_ := Some (if negb (description =? "")%string
                             then description else ""%string)).
  assert (Hdescription : description_ = Some description).
  { unfold description_. destruct (String.eqb_spec description "") as [-> | _];
      reflexivity. }
  destruct (db_helper.check_duplicate amount category date description_ 5
              (db_helper.datetime_now clk) db) as [e|] eqn:Hcheck.
  - rewrite (add_expense_duplicate _ _ _ _ _ _ _ Hcheck). cbv beta iota.
    eexists _, _, _. split; [reflexivity|]. split; [now left|].
    apply check_duplicate_Some in Hcheck as [_ Hw].
    apply duplicate_where_holds in Hw as (_ & (_ & Hc & Hd & Hs) & _).
    cbn [db_helper.expense_]. rewrite Hc, Hd, Hs. auto.
  - rewrite (add_expense_created _ _ _ _ _ _ Hcheck Hnan
               (proj2 (str_in_In _ _) Hcategory)).
    cbv beta iota.
    eexists _, _, _. split; [reflexivity|]. split; [now right|].
    cbn [db_helper.expense_ spec.new_row db_helper.category
         db_helper.expense_date db_helper.description]. auto.
Qed.

(** The list request of the page is never rejected, and it asks the store
    for what the two select boxes say: every category for "All", else the
    category picked; newest first for "Newest First", else oldest first. *)
Theorem list_request_is_accepted (response : frontend.categories_response)
    (filter_category sort_order : string) (db : db_helper.database) :
  page.from_api_or_failed response ->
  In filter_category ("All"%string :: frontend.get_categories response) ->
  app.get_expenses upper
    (fst (frontend.params filter_category sort_order))
    (snd (frontend.params filter_category sort_order)) db
  = (app.expense_list (page.listing filter_category sort_order db)
       (page.total filter_category db)
       (Z.of_nat (List.length (page.listing filter_category sort_order db))), 200).
Proof.
  intros Hresponse Hin.
  rewrite (page_categories response Hresponse) in Hin.
  unfold frontend.params, page.listing, page.total, app.get_expenses.
  cbn [fst snd].
  assert (Hsort : match (if (sort_order =? "Newest First")%string
                         then Some "date_desc"%string else None) with
                  | Some s => (s =? "date_desc")%string
                  | None => false
                  end = (sort_order =? "Newest First")%string)
    by (now destruct (sort_order =? "Newest First")%string).
  rewrite Hsort.
  destruct (String.eqb_spec filter_category "All") as [-> | Hall]; [reflexivity|].
  destruct Hin as [E | Hin]; [congruence|].
  cbn [negb py.truthy_str option_map].
  destruct (String.eqb_spec filter_category "") as [E | _].
  { now apply valid_category_not_empty in Hin. }
  cbn [negb]. rewrite (upper_label filter_category Hin).
  rewrite (proj2 (str_in_In _ _) Hin). reflexivity.
Qed.

End Page.

Lemma upper_ascii_label (c : string) :
  In c app.VALID_CATEGORIES -> world.upper_ascii c = c.
Proof.
  intros H. vm_compute in H.
  repeat (destruct H as [<- | H]; [reflexivity|]). contradiction.
Qed.

Lemma form_submission_is_accepted_witness :
  exists o code db',
    app.create_expense world.upper_ascii (fun _ => None) (fun _ => None)
      (app.data (frontend.expense_data 12.5 "FOOD" "" "2024-01-15"))
      (world.clock_at 0 example.ten_o_clock) world.fresh
    = ((app.expense_result o, code), db') /\
    (code = 200 \/ code = 201) /\
    db_helper.category (db_helper.expense_ o) = "FOOD"%string /\
    db_helper.expense_date (db_helper.expense_ o) = "2024-01-15"%string /\
    db_helper.description (db_helper.expense_ o) = Some ""%string.
Proof.
  apply (form_submission_is_accepted world.upper_ascii (fun _ => None)
           (fun _ => None) upper_ascii_label None).
  - right. exact I.
  - simpl. now left.
  - reflexivity.
  - discriminate.
Defined.

Lemma list_request_is_accepted_witness :
  app.get_expenses world.upper_ascii
    (fst (frontend.params "FOOD" "Newest First"))
    (snd (frontend.params "FOOD" "Newest First")) example.small_ledger
  = (app.expense_list (page.listing "FOOD" "Newest First" example.small_ledger)
       (page.total "FOOD" example.small_ledger)
       (Z.of_nat (List.length
                    (page.listing "FOOD" "Newest First" example.small_ledger))), 200).
Proof.
  apply (list_request_is_accepted world.upper_ascii upper_ascii_label
           frontend.categories_from_api).
  - now left.
  - simpl. auto.
Defined.

(* ------------------------------------------------------------------------- *)
(** ** The delete button of a listed row                                      *)
(* ------------------------------------------------------------------------- *)

Lemma date_desc_total (a b : db_helper.expense) :
  db_helper.date_desc a b = false -> db_helper.date_desc b a = true.
Proof.
  rewrite !date_desc_flip. apply date_asc_total.
Qed.

Lemma date_desc_trans (a b c : db_helper.expense) :
  db_helper.date_desc a b = true -> db_helper.date_desc b c = true ->
  db_helper.date_desc a c = true.
Proof.
  rewrite !date_desc_flip. intros H1 H2. exact (date_asc_trans c b a H2 H1).
Qed.

Lemma get_expenses_filter (keep : db_helper.expense -> bool)
    (category_ : option string) (newest_first : bool) (db : db_helper.database) :
  filter keep (db_helper.get_expenses category_ newest_first db)
  = sql.order_by (if newest_first then db_helper.date_desc else db_helper.date_asc)
      (filter (db_helper.category_where category_)
         (filter keep (db_helper.personal_expenses db))).
Proof.
  unfold db_helper.get_expenses. rewrite (filter_comm _ keep).
  destruct newest_first.
  - apply filter_order_by; [apply date_desc_total | apply date_desc_trans].
  - apply filter_order_by; [apply date_asc_total | apply date_asc_trans].
Qed.

Lemma filter_id_single (rows : list db_helper.expense) (row : db_helper.expense) :
  StronglySorted (fun a b => db_helper.id a < db_helper.id b) rows ->
  In row rows ->
  filter (fun r => db_helper.id r =? db_helper.id row) rows = [row].
Proof.
  intros Hsorted Hin.
  destruct (in_split _ _ Hin) as (before & after & ->).
  pose proof (sorted_ids_nodup _ Hsorted) as Hnodup.
  rewrite map_app in Hnodup. cbn [map] in Hnodup.
  apply NoDup_remove_2 in Hnodup.
  rewrite filter_app. cbn [filter]. rewrite Z.eqb_refl.
  rewrite !filter_none; [reflexivity| |];
    intros x Hx; apply Z.eqb_neq; intros Hid;
    apply Hnodup, in_or_app; [right | left]; rewrite <- Hid; now apply in_map.
Qed.

(** Every row the page lists can be deleted with its button.  On a table
    that satisfies the schema's invariants the ids of the listed rows are
    pairwise different (they are the keys of the buttons); the DELETE for a
    listed row is answered 200 and the page reports success; and the list
    shown afterwards is the old list without that one row, the others in
    their order. *)
Theorem listed_expense_can_be_deleted (filter_category sort_order : string)
    (db : db_helper.database) (row : db_helper.expense) :
  spec.well_formed db ->
  In row (page.listing filter_category sort_order db) ->
  NoDup (map db_helper.id (page.listing filter_category sort_order db)) /\
  exists db',
    app.delete_expense (db_helper.id row) db
    = ((app.deleted (db_helper.id row), 200), db') /\
    frontend.delete_notice (Some (snd (fst (app.delete_expense (db_helper.id row) db))))
    = frontend.deleted_notice /\
    page.listing filter_category sort_order db'
    = filter (fun r => negb (db_helper.id r =? db_helper.id row))
        (page.listing filter_category sort_order db) /\
    List.length (page.listing filter_category sort_order db)
    = S (List.length (page.listing filter_category sort_order db')).
Proof.
  intros Hwf Hin. unfold page.listing in *.
  set (c := if (filter_category =? "All")%string then None else Some filter_category)
    in *.
  set (s := (sort_order =? "Newest First")%string) in *.
  pose proof (spec.wf_sorted db Hwf) as Hsorted.
  assert (Hrow : In row (db_helper.personal_expenses db) /\
                 db_helper.category_where c row = true).
  { unfold db_helper.get_expenses in Hin.
    now apply order_by_In, filter_In in Hin. }
  destruct Hrow as [Hstored Hpass].
  split.
  - unfold db_helper.get_expenses.
    apply (Permutation_NoDup
             (l := map db_helper.id
                     (filter (db_helper.category_where c)
                        (db_helper.personal_expenses db)))).
    + apply Permutation_map, Permutation_sym, order_by_perm.
    + apply sorted_ids_nodup, strongly_sorted_filter, Hsorted.
  - exists (snd (db_helper.delete_expense (db_helper.id row) db)).
    assert (Hdel : app.delete_expense (db_helper.id row) db
                   = ((app.deleted (db_helper.id row), 200),
                      snd (db_helper.delete_expense (db_helper.id row) db))).
    { unfold app.delete_expense.
      rewrite (surjective_pairing (db_helper.delete_expense _ db)).
      replace (fst (db_helper.delete_expense (db_helper.id row) db)) with true;
        [reflexivity|].
      symmetry. apply delete_expense_found. now exists row. }
    assert (Hlist : db_helper.get_expenses c s
                      (snd (db_helper.delete_expense (db_helper.id row) db))
                    = filter (fun r => negb (db_helper.id r =? db_helper.id row))
                        (db_helper.get_expenses c s db)).
    { rewrite get_expenses_filter, delete_expense_store. reflexivity. }
    split; [exact Hdel|]. split; [now rewrite Hdel|]. split; [exact Hlist|].
    rewrite Hlist.
    rewrite (Permutation_length
               (filter_split_perm (fun r => db_helper.id r =? db_helper.id row)
                  (db_helper.get_expenses c s db))).
    rewrite length_app, get_expenses_filter, (filter_id_single _ _ Hsorted Hstored).
    cbn [filter]. rewrite Hpass. now destruct s.
Qed.

Lemma listed_expense_can_be_deleted_witness :
  let db := db_helper.mk_database
              [example.lunch 1 1705312800; example.lunch 2 1705313400] 2 in
  let row := example.lunch 2 1705313400 in
  NoDup (map db_helper.id (page.listing "FOOD" "Newest First" db)) /\
  exists db',
    app.delete_expense (db_helper.id row) db
    = ((app.deleted (db_helper.id row), 200), db') /\
    frontend.delete_notice (Some (snd (fst (app.delete_expense (db_helper.id row) db))))
    = frontend.deleted_notice /\
    page.listing "FOOD" "Newest First" db'
    = filter (fun r => negb (db_helper.id r =? db_helper.id row))
        (page.listing "FOOD" "Newest First" db) /\
    List.length (page.listing "FOOD" "Newest First" db)
    = S (List.length (page.listing "FOOD" "Newest First" db')).
Proof.
  apply (listed_expense_can_be_deleted "FOOD" "Newest First"
           (db_helper.mk_database
              [example.lunch 1 1705312800; example.lunch 2 1705313400] 2)
           (example.lunch 2 1705313400)).
  - constructor; cbn [db_helper.personal_expenses db_helper.sqlite_sequence].
    + repeat constructor.
    + repeat constructor; vm_compute; discriminate.
    + repeat constructor.
    + constructor; [|constructor; [|constructor]];
        apply (proj1 (str_in_In _ _)); reflexivity.
  - vm_compute. auto.
Defined.

(** What the page reports after a delete button was pressed, for any id and
    any table: success exactly when a row of that id was stored, and
    otherwise the general failure text.  The 404 of the API never reaches
    the branch written for it, because a response with an error status is
    false in a condition: "Expense not found" is never shown. *)
Theorem not_found_is_never_shown (expense_id : Z) (db : db_helper.database) :
  frontend.delete_notice (Some (snd (fst (app.delete_expense expense_id db))))
  = (if fst (db_helper.delete_expense expense_id db)
     then frontend.deleted_notice else frontend.failed_notice) /\
  forall delete_response,
    frontend.delete_notice delete_response <> frontend.not_found_notice.
Proof.
  split.
  - unfold app.delete_expense.
    destruct (db_helper.delete_expense expense_id db) as [[|] db']; reflexivity.
  - intros [code|]; [|discriminate]. unfold frontend.delete_notice.
    destruct (frontend.response_truthy code && (code =? 200)); [discriminate|].
    destruct (frontend.response_truthy code && (code =? 404)) eqn:E; [|discriminate].
    apply andb_true_iff in E as [Hok Hcode].
    apply Z.eqb_eq in Hcode. subst code. discriminate.
Qed.
